(** * Search_Agent: the tool functions of app.py

    A shallow embedding of [normalize_url], [firecrawl_scrape_tool] and
    [arxiv_search_tool] (src/app.py), with the fragment of Python they run
    on: strings as sequences of code points, a small universe of Python
    values, exceptions as an error monad, and [urllib.parse.urlparse]. *)

From Stdlib Require Import String Ascii.
From Stdlib Require Import List NArith ZArith Bool Arith Lia.
From Stdlib Require Import DecimalString.
Import ListNotations.

Set Implicit Arguments.

(* ====================================================================== *)
(** ** Python strings *)

(** A Python [str] is a sequence of Unicode code points; [len], slicing and
    [in] count code points, not bytes. *)
Definition char := N.
Definition str := list char.

Module Utf8.

(** The source file is UTF-8: a literal of the embedding is read as the
    bytes of the source text and decoded to code points. *)
Fixpoint bytes (s : string) : list N :=
  match s with
  | EmptyString => []
  | String a t => N_of_ascii a :: bytes t
  end.

Definition cont (b : N) : N := b - 128.

Fixpoint decode (l : list N) : str :=
  match l with
  | [] => []
  | b :: t =>
      if b <? 128 then b :: decode t
      else if b <? 224 then
        match t with
        | b1 :: t1 => ((b - 192) * 64 + cont b1) :: decode t1
        | _ => []
        end
      else if b <? 240 then
        match t with
        | b1 :: b2 :: t2 =>
            ((b - 224) * 4096 + cont b1 * 64 + cont b2) :: decode t2
        | _ => []
        end
      else
        match t with
        | b1 :: b2 :: b3 :: t3 =>
            ((b - 240) * 262144 + cont b1 * 4096 + cont b2 * 64 + cont b3)
              :: decode t3
        | _ => []
        end
  end%N.

End Utf8.

(** [u "..."] is the Python string written "..." in the source. *)
Definition u (s : string) : str := Utf8.decode (Utf8.bytes s).

Definition chr (a : ascii) : char := N_of_ascii a.

(** [a == b] *)
Fixpoint str_eqb (a b : str) : bool :=
  match a, b with
  | [], [] => true
  | x :: a', y :: b' => (x =? y)%N && str_eqb a' b'
  | _, _ => false
  end.

(** [c in chars], for a character [c]. *)
Definition char_in (c : char) (chars : str) : bool := existsb (N.eqb c) chars.

(** [s.startswith(p)] *)
Fixpoint startswith (p s : str) : bool :=
  match p, s with
  | [], _ => true
  | _ :: _, [] => false
  | a :: p', b :: s' => (a =? b)%N && startswith p' s'
  end.

(** [a in b] on two strings: [a] occurs in [b] at some position. *)
Fixpoint contains (a b : str) : bool :=
  match b with
  | [] => startswith a []
  | _ :: t => startswith a b || contains a t
  end.

(** [s.replace(old, new)]: the occurrences of [old] are found left to right,
    each search resuming after the previous occurrence.  [skip] counts the
    characters of the current occurrence still to be dropped. *)
Fixpoint replace_from (old new : str) (skip : nat) (s : str) : str :=
  match s with
  | [] => []
  | c :: t =>
      match skip with
      | S k => replace_from old new k t
      | O =>
          if startswith old s
          then new ++ replace_from old new (length old - 1) t
          else c :: replace_from old new 0 t
      end
  end.

Definition str_replace (old new s : str) : str :=
  match old with
  | [] => new ++ flat_map (fun c => c :: new) s
  | _ :: _ => replace_from old new 0 s
  end.

(** [sep.join(parts)] *)
Fixpoint join (sep : str) (parts : list str) : str :=
  match parts with
  | [] => []
  | [p] => p
  | p :: rest => p ++ sep ++ join sep rest
  end.

(** [s.split(c, 1)] when [c] occurs in [s]: the text before the first [c] and
    the text after it.  When [c] does not occur the second part is empty. *)
Fixpoint split_at (c : char) (s : str) : str * str :=
  match s with
  | [] => ([], [])
  | x :: t =>
      if (x =? c)%N then ([], t)
      else let (a, b) := split_at c t in (x :: a, b)
  end.

(** [if c in s: s, rest = s.split(c, 1)], [rest] being empty otherwise. *)
Definition split_off (c : char) (s : str) : str * str :=
  if char_in c s then split_at c s else (s, []).

(** [s.lstrip(chars)] *)
Fixpoint lstrip (chars : str) (s : str) : str :=
  match s with
  | [] => []
  | c :: t => if char_in c chars then lstrip chars t else s
  end.

(** [s.find(c)] for a single character. *)
Fixpoint find_char (c : char) (s : str) : option nat :=
  match s with
  | [] => None
  | x :: t =>
      if (x =? c)%N then Some 0
      else option_map S (find_char c t)
  end.

(** [s.rfind(c)] for a single character. *)
Fixpoint rfind_char (c : char) (s : str) : option nat :=
  match s with
  | [] => None
  | x :: t =>
      match rfind_char c t with
      | Some i => Some (S i)
      | None => if (x =? c)%N then Some 0 else None
      end
  end.

Definition is_ascii_alpha (c : char) : bool :=
  ((65 <=? c) && (c <=? 90) || (97 <=? c) && (c <=? 122))%N.

Definition is_ascii_digit (c : char) : bool := ((48 <=? c) && (c <=? 57))%N.

Definition lower_char (c : char) : char :=
  if ((65 <=? c) && (c <=? 90))%N then (c + 32)%N else c.

Definition lower (s : str) : str := map lower_char s.

Definition isascii (s : str) : bool := forallb (fun c => c <? 128)%N s.


(** [url.find(c, start)] *)
Definition find_char_from (c : char) (start : nat) (s : str) : option nat :=
  option_map (fun i => start + i) (find_char c (skipn start s)).

(** The longest prefix of [s] with no character of [stop], and the rest. *)
Fixpoint span_until (stop : str) (s : str) : str * str :=
  match s with
  | [] => ([], [])
  | c :: t =>
      if char_in c stop then ([], s)
      else let (a, b) := span_until stop t in (c :: a, b)
  end.

(* ====================================================================== *)
(** ** Python values and exceptions *)

(** The values the tools can meet in a collaborator's answer: JSON-like
    documents, and [PObj] for an object of any other class (an SDK document
    object, for one), of which the code can only observe [str()].  Such an
    object is truthy and has no [get], [len], iteration, slicing or JSON
    encoding.  A dict is an association list with [str] keys, each key
    occurring once. *)
#[warnings="-register-all"]
Inductive pyval :=
| PNone
| PInt (n : Z)
| PStr (s : str)
| PList (l : list pyval)
| PDict (d : list (str * pyval))
| PObj (text : str).

(** Exception classes; every one of them derives from [Exception].
    [ClientError] stands for whatever class a collaborator raises. *)
Inductive exn_class :=
| Exception | TypeError | AttributeError | ValueError | KeyError | ClientError.

Inductive exn :=
| Raised (c : exn_class) (msg : str)  (* raise c(msg), in app.py or in a client *)
| Interp (c : exn_class).             (* raised by the interpreter or the standard library *)

Inductive exc (A : Type) :=
| Ok (a : A)
| Raise (e : exn).
Arguments Ok {A} a.
Arguments Raise {A} e.

Definition bind {A B} (m : exc A) (k : A -> exc B) : exc B :=
  match m with
  | Ok a => k a
  | Raise e => Raise e
  end.

Notation "x <- m ;; k" := (bind m (fun x => k))
  (at level 61, m at next level, right associativity).

Definition isinstance_Exception (e : exn) : bool :=
  match e with
  | Raised c _ | Interp c =>
      match c with
      | Exception | TypeError | AttributeError | ValueError | KeyError
      | ClientError => true
      end
  end.

(** [try: body / except E1: h1 / except E2: h2 ...]: the first clause whose
    class matches handles the exception; an exception raised inside a
    handler is not offered to the later clauses. *)
Fixpoint dispatch {A} (clauses : list ((exn -> bool) * (exn -> exc A)))
    (e : exn) : exc A :=
  match clauses with
  | [] => Raise e
  | (matches, handler) :: rest =>
      if matches e then handler e else dispatch rest e
  end.

Definition try_except {A} (body : exc A)
    (clauses : list ((exn -> bool) * (exn -> exc A))) : exc A :=
  match body with
  | Ok a => Ok a
  | Raise e => dispatch clauses e
  end.

(** What a tool hands back to the conversation: the text [json.dumps]
    makes of a document, identified with that document, or a plain string. *)
Inductive tool_text :=
| Json (doc : pyval)
| Text (s : str).

Fixpoint lookup (k : str) (d : list (str * pyval)) : option pyval :=
  match d with
  | [] => None
  | (k', v) :: rest => if str_eqb k k' then Some v else lookup k rest
  end.

(** [bool(v)] *)
Definition truthy (v : pyval) : bool :=
  match v with
  | PNone => false
  | PInt n => negb (n =? 0)%Z
  | PStr s => negb (Nat.eqb (length s) 0)
  | PList l => negb (Nat.eqb (length l) 0)
  | PDict d => negb (Nat.eqb (length d) 0)
  | PObj _ => true
  end.

Definition isinstance_dict (v : pyval) : bool :=
  match v with PDict _ => true | _ => false end.

(** [v.get(k, default)] *)
Definition py_get (v : pyval) (k : str) (default : pyval) : exc pyval :=
  match v with
  | PDict d => Ok (match lookup k d with Some x => x | None => default end)
  | _ => Raise (Interp AttributeError)
  end.

(** [k in v], for a dict [v] *)
Definition has_key (k : str) (v : pyval) : bool :=
  match v with
  | PDict d => match lookup k d with Some _ => true | None => false end
  | _ => false
  end.

(** [v[k]] *)
Definition py_getitem (v : pyval) (k : str) : exc pyval :=
  match v with
  | PDict d =>
      match lookup k d with
      | Some x => Ok x
      | None => Raise (Interp KeyError)
      end
  | _ => Raise (Interp TypeError)
  end.

(** [len(v)] *)
Definition py_len (v : pyval) : exc nat :=
  match v with
  | PStr s => Ok (length s)
  | PList l => Ok (length l)
  | PDict d => Ok (length d)
  | _ => Raise (Interp TypeError)
  end.

(** [v[:n]]; slicing a dict fails (with TypeError or, from Python 3.12 on,
    KeyError). *)
Definition py_slice_to (n : nat) (v : pyval) : exc pyval :=
  match v with
  | PStr s => Ok (PStr (firstn n s))
  | PList l => Ok (PList (firstn n l))
  | _ => Raise (Interp TypeError)
  end.

(** [for x in v] *)
Definition py_iter (v : pyval) : exc (list pyval) :=
  match v with
  | PList l => Ok l
  | PStr s => Ok (map (fun c => PStr [c]) s)
  | PDict d => Ok (map (fun kv => PStr (fst kv)) d)
  | _ => Raise (Interp TypeError)
  end.

(** [a in v], for a string [a] *)
Definition str_in_py (a : str) (v : pyval) : exc bool :=
  match v with
  | PStr s => Ok (contains a s)
  | PList l =>
      Ok (existsb (fun x => match x with PStr s => str_eqb a s | _ => false end) l)
  | PDict d => Ok (existsb (fun kv => str_eqb a (fst kv)) d)
  | _ => Raise (Interp TypeError)
  end.

(** [v in b], for a string [b] *)
Definition py_in_str (v : pyval) (b : str) : exc bool :=
  match v with
  | PStr s => Ok (contains s b)
  | _ => Raise (Interp TypeError)
  end.

(** Whether [json.dumps] can encode the value. *)
Fixpoint json_serializable (v : pyval) : bool :=
  match v with
  | PNone | PInt _ | PStr _ => true
  | PList l => forallb json_serializable l
  | PDict d => forallb (fun kv => json_serializable (snd kv)) d
  | PObj _ => false
  end.

(** [json.dumps(v, ensure_ascii=False)] *)
Definition json_dumps (v : pyval) : exc tool_text :=
  if json_serializable v then Ok (Json v) else Raise (Interp TypeError).

Definition str_of_Z (n : Z) : str :=
  Utf8.bytes (NilZero.string_of_int (Z.to_int n)).

(* ====================================================================== *)
(** ** The parts of the runtime that are not modelled

    Four library behaviours are left open; every theorem below holds for
    each choice of them. *)
Record Runtime := {
  (** [repr] of a list or dict. *)
  container_repr : pyval -> str;
  (** [str(e)] of an exception raised by the interpreter or the library. *)
  interp_str : exn_class -> str;
  (** urllib's validation of a bracketed (IPv6, IPvFuture) host in a netloc
      that holds both brackets. *)
  bracketed_netloc_valid : str -> bool;
  (** urllib's [_checknetloc] on a netloc with non-ASCII characters: whether
      its NFKC form gains one of the characters / ? # @ : *)
  nfkc_rejects : str -> bool
}.

Section App.

Variable rt : Runtime.

(** [str(v)], also what an f-string makes of [v]. *)
Definition py_str (v : pyval) : str :=
  match v with
  | PNone => u "None"
  | PInt n => str_of_Z n
  | PStr s => s
  | PObj text => text
  | PList _ | PDict _ => container_repr rt v
  end.

(** [str(e)] *)
Definition exn_str (e : exn) : str :=
  match e with
  | Raised _ msg => msg
  | Interp c => interp_str rt c
  end.

(* ---------------------------------------------------------------------- *)
(** ** urllib.parse.urlparse (CPython 3.11 to 3.13, Lib/urllib/parse.py) *)

Record ParseResult := {
  scheme : str;
  netloc : str;
  path : str;
  params : str;
  query : str;
  fragment : str
}.

Definition WHATWG_C0_CONTROL_OR_SPACE : str := map N.of_nat (seq 0 33).

(** '\t', '\r', '\n' *)
Definition UNSAFE_URL_BYTES_TO_REMOVE : list str := [[9]; [13]; [10]]%N.

Definition scheme_chars (c : char) : bool :=
  is_ascii_alpha c || is_ascii_digit c || char_in c (u "+-.").

Definition uses_params : list str :=
  [u ""; u "ftp"; u "hdl"; u "prospero"; u "http"; u "imap"; u "https";
   u "shttp"; u "rtsp"; u "rtspu"; u "sip"; u "sips"; u "mms"; u "sftp";
   u "tel"].

(** [_splitnetloc(url, 2)]: [url[2:delim], url[delim:]] with [delim] the
    earliest of '/', '?', '#' from position 2 on, or the end. *)
Definition splitnetloc (url : str) : str * str :=
  span_until (u "/?#") (skipn 2 url).

(** The scheme is [url[:i]] when the first ':' is at [i > 0], the first
    character is an ASCII letter and all of [url[:i]] are scheme
    characters. *)
Definition split_scheme (url : str) : str * str :=
  match find_char (chr ":") url with
  | Some i =>
      if (0 <? i) && is_ascii_alpha (hd 0%N url)
         && forallb scheme_chars (firstn i url)
      then (lower (firstn i url), skipn (S i) url)
      else ([], url)
  | None => ([], url)
  end.

Definition check_brackets (netloc : str) : exc unit :=
  let lb := char_in (chr "[") netloc in
  let rb := char_in (chr "]") netloc in
  if (lb && negb rb) || (rb && negb lb)
  then Raise (Raised ValueError (u "Invalid IPv6 URL"))
  else if lb && rb
       then if bracketed_netloc_valid rt netloc then Ok tt
            else Raise (Interp ValueError)
       else Ok tt.

Definition checknetloc (netloc : str) : exc unit :=
  if Nat.eqb (length netloc) 0 || isascii netloc then Ok tt
  else if nfkc_rejects rt netloc then Raise (Interp ValueError)
       else Ok tt.

Definition urlsplit (url : str) : exc ParseResult :=
  let url := lstrip WHATWG_C0_CONTROL_OR_SPACE url in
  let url := fold_left (fun s b => str_replace b [] s)
               UNSAFE_URL_BYTES_TO_REMOVE url in
  let (scheme, url) := split_scheme url in
  nu <- (if startswith (u "//") url
         then let (netloc, rest) := splitnetloc url in
              _ <- check_brackets netloc;; Ok (netloc, rest)
         else Ok ([], url));;
  let (netloc, url) := nu : str * str in
  let (url, fragment) := split_off (chr "#") url in
  let (url, query) := split_off (chr "?") url in
  _ <- checknetloc netloc;;
  Ok {| scheme := scheme; netloc := netloc; path := url; params := [];
        query := query; fragment := fragment |}.

(** [_splitparams(url)], called when ';' occurs in [url]. *)
Definition splitparams (url : str) : str * str :=
  let cut i := (firstn i url, skipn (S i) url) in
  match rfind_char (chr "/") url with
  | Some slash =>
      match find_char_from (chr ";") slash url with
      | Some i => cut i
      | None => (url, [])
      end
  | None =>
      match find_char (chr ";") url with
      | Some i => cut i
      | None => (url, [])
      end
  end.

Definition urlparse (url : str) : exc ParseResult :=
  r <- urlsplit url;;
  if existsb (str_eqb (scheme r)) uses_params && char_in (chr ";") (path r)
  then let (url', params') := splitparams (path r) in
       Ok {| scheme := scheme r; netloc := netloc r; path := url';
             params := params'; query := query r; fragment := fragment r |}
  else Ok r.

(* ---------------------------------------------------------------------- *)
(** ** normalize_url (app.py, lines 66-74) *)

Definition normalize_url (url : str) : str :=
  match urlparse url with
  | Ok parsed =>
      let netloc := str_replace (u "m.") (u "")
                      (str_replace (u "www.") (u "") (netloc parsed)) in
      netloc ++ path parsed
  | Raise _ => url
  end.

(** [normalize_url] on any value.  For an argument that is not a [str] the
    body of the [try] always raises ([urlparse] calls [decode] on a truthy
    argument, and on a falsy one it returns a bytes result whose [replace]
    rejects the str arguments), so the bare [except] returns the
    argument. *)
Definition normalize_url_py (url : pyval) : pyval :=
  match url with
  | PStr s => PStr (normalize_url s)
  | _ => url
  end.

(** The test of lines 126-128 on two URL strings:
    [target_norm in res_norm or res_norm in target_norm]. *)
Definition is_match (candidate target : str) : bool :=
  let target_norm := normalize_url target in
  let res_norm := normalize_url candidate in
  contains target_norm res_norm || contains res_norm target_norm.

(* ---------------------------------------------------------------------- *)
(** ** The collaborators

    [firecrawl_app], [tavily_client] and the [arxiv] module are globals of
    app.py; here they are arguments.  A call returns a value or raises. *)

(** The Firecrawl SDK object; which of the two methods it has depends on
    the SDK version ([hasattr]).  A method takes the URL and [params]. *)
Record FirecrawlApp := {
  scrape_url : option (str -> pyval -> exc pyval);
  scrape : option (str -> pyval -> exc pyval)
}.

(** [tavily_client.search(query=..., search_depth=...)] *)
Record TavilyClient := {
  search : str -> str -> exc pyval
}.

Inductive SortCriterion := Relevance | LastUpdatedDate | SubmittedDate.

(** A [datetime], seen through its [strftime] method. *)
Record datetime := {
  strftime : str -> str
}.

(** [arxiv.Result] *)
Record ArxivResult := {
  title : str;
  summary : str;
  published : datetime;
  pdf_url : option str
}.

(** [arxiv.Search(query=..., max_results=..., sort_by=...).results()] *)
Record Arxiv := {
  Search_results : str -> nat -> SortCriterion -> exc (list ArxivResult)
}.

(** '\n' *)
Definition nl : str := [10%N].

(* ---------------------------------------------------------------------- *)
(** ** arxiv_search_tool (app.py, lines 48-62) *)

Definition paper_entry (result : ArxivResult) : pyval :=
  PDict [ (u "title", PStr (title result));
          (u "summary", PStr (firstn 200 (summary result) ++ u "..."));
          (u "published", PStr (strftime (published result) (u "%Y-%m-%d")));
          (u "pdf_url", match pdf_url result with
                        | Some l => PStr l
                        | None => PNone
                        end) ].

Definition arxiv_search_tool (arxiv : Arxiv) (query : str) : exc tool_text :=
  try_except
    (found <- Search_results arxiv query 3 Relevance;;
     let results := map paper_entry found in
     json_dumps (PList results))
    [ (isinstance_Exception, fun e => Ok (Text (u "Error: " ++ exn_str e))) ].

(* ---------------------------------------------------------------------- *)
(** ** firecrawl_scrape_tool (app.py, lines 76-180)

    The definitions of this section are the tool without its three
    [print] calls, that is, on a console that takes every message; the
    calls are in [firecrawl_scrape_tool_on] below. *)

Definition scrape_params : pyval :=
  PDict [ (u "formats", PList [PStr (u "markdown")]) ].

(** Lines 86-91. *)
Definition call_scrape (firecrawl_app : FirecrawlApp) (url : str) : exc pyval :=
  match scrape_url firecrawl_app with
  | Some scrape_url => scrape_url url scrape_params
  | None =>
      match scrape firecrawl_app with
      | Some scrape => scrape url scrape_params
      | None => Raise (Raised AttributeError (u "Firecrawl 메소드 확인 필요"))
      end
  end.

(** Lines 94-100: the value of [content] after the parsing step. *)
Definition extract_content (scrape_result : pyval) : exc pyval :=
  if isinstance_dict scrape_result then
    content <- py_get scrape_result (u "markdown") (PStr (u ""));;
    if negb (truthy content) && has_key (u "data") scrape_result then
      data <- py_getitem scrape_result (u "data");;
      py_get data (u "markdown") (PStr (u ""))
    else Ok content
  else Ok (PStr (py_str scrape_result)).

(** Line 103: [not content or len(content) < 100]. *)
Definition too_short (content : pyval) : exc bool :=
  if negb (truthy content) then Ok true
  else n <- py_len content;; Ok (n <? 100).

(** Lines 86-110: the body of the outer [try] after its [print]. *)
Definition direct_scrape (firecrawl_app : FirecrawlApp) (url : str)
    : exc tool_text :=
  scrape_result <- call_scrape firecrawl_app url;;
  content <- extract_content scrape_result;;
  blocked <- too_short content;;
  if blocked then Raise (Raised Exception (u "직접 접속 차단됨"))
  else
    head <- py_slice_to 4000 content;;
    json_dumps (PDict [ (u "status", PStr (u "success"));
                        (u "method", PStr (u "direct_scrape"));
                        (u "content", head) ]).

(** Line 128. *)
Definition url_overlap (target_norm : str) (res_norm : pyval) : exc bool :=
  a <- str_in_py target_norm res_norm;;
  if a then Ok true else py_in_str res_norm target_norm.

(** Line 129: the f-string. *)
Definition matched_entry (title content : pyval) : str :=
  u "- 제목: " ++ py_str title ++ nl ++ u "- 내용: " ++ py_str content.

(** Lines 125-129: the loop, [matched_content] being the accumulator. *)
Fixpoint collect_matches (target_norm : str) (raw_results : list pyval)
    (matched_content : list str) : exc (list str) :=
  match raw_results with
  | [] => Ok matched_content
  | res :: rest =>
      res_url <- py_get res (u "url") (PStr (u ""));;
      let res_norm := normalize_url_py res_url in
      hit <- url_overlap target_norm res_norm;;
      if hit then
        t <- py_get res (u "title") PNone;;
        c <- py_get res (u "content") PNone;;
        collect_matches target_norm rest
          (matched_content ++ [matched_entry t c])
      else collect_matches target_norm rest matched_content
  end.

Definition refusal_message : str :=
  u "페이지 내용을 읽을 수 없습니다. (스크래핑 차단 및 검색 캐시 없음). 거짓 정보를 드리지 않기 위해 답변을 중단합니다.".

Definition refusal : pyval :=
  PDict [ (u "status", PStr (u "error"));
          (u "message", PStr refusal_message) ].

Definition collection_failed : pyval :=
  PDict [ (u "status", PStr (u "error"));
          (u "message", PStr (u "정보 수집 완전 실패")) ].

(** Lines 116-145: the inner [try] of the first [except Exception]
    clause, which follows the [print] of the clause. *)
Definition verified_fallback (tavily_client : TavilyClient) (url : str)
    : exc tool_text :=
  try_except
    (fallback_result <- search tavily_client url (u "advanced");;
     raw_results <- py_get fallback_result (u "results") (PList []);;
     let target_norm := normalize_url url in
     items <- py_iter raw_results;;
     matched_content <- collect_matches target_norm items [];;
     if Nat.eqb (length matched_content) 0
     then json_dumps refusal
     else json_dumps
            (PDict [ (u "status", PStr (u "fallback_success"));
                     (u "method", PStr (u "verified_search_cache"));
                     (u "content", PStr (join (nl ++ nl) matched_content)) ]))
    [ (isinstance_Exception, fun tavily_e => json_dumps collection_failed) ].

(** Line 165: the f-string. *)
Definition summary_entry (res : pyval) : exc str :=
  t <- py_get res (u "title") PNone;;
  c <- py_get res (u "content") PNone;;
  l <- py_get res (u "url") PNone;;
  Ok (u "- 제목: " ++ py_str t ++ nl ++ u "- 내용요약: " ++ py_str c
        ++ nl ++ u "- 링크: " ++ py_str l).

Fixpoint summary_entries (results : list pyval) : exc (list str) :=
  match results with
  | [] => Ok []
  | res :: rest =>
      entry <- summary_entry res;;
      more <- summary_entries rest;;
      Ok (entry :: more)
  end.

(** Lines 151-180: the inner [try] of the second [except Exception]
    clause, which follows the [print] of the clause. *)
Definition summary_fallback (tavily_client : TavilyClient) (url : str)
    (e : exn) : exc tool_text :=
  try_except
    (fallback_result <- search tavily_client url (u "advanced");;
     results <- py_get fallback_result (u "results") (PList []);;
     if negb (truthy results)
     then json_dumps
            (PDict [ (u "status", PStr (u "error"));
                     (u "message", PStr (u "스크래핑 및 검색 우회 모두 실패했습니다.")) ])
     else
       top <- py_slice_to 2 results;;
       items <- py_iter top;;
       fallback_content <- summary_entries items;;
       let joined_content := join (nl ++ nl) fallback_content in
       json_dumps
         (PDict [ (u "status", PStr (u "fallback_success"));
                  (u "method", PStr (u "tavily_search_fallback"));
                  (u "note", PStr (u "직접 접속이 차단되어 검색 엔진의 요약 정보를 대신 제공합니다. 전체 전문이 아닐 수 있습니다."));
                  (u "content", PStr joined_content) ]))
    [ (isinstance_Exception,
       fun tavily_e =>
         json_dumps
           (PDict [ (u "status", PStr (u "error"));
                    (u "message",
                     PStr (u "모든 수집 시도 실패. Firecrawl: " ++ exn_str e
                             ++ u ", Tavily: " ++ exn_str tavily_e)) ])) ].

(** The [try] statement of lines 84-180 without the three [print] calls:
    what [firecrawl_scrape_tool_on] is on a console that takes every
    message. *)
Definition firecrawl_scrape_tool (firecrawl_app : FirecrawlApp)
    (tavily_client : TavilyClient) (url : str) : exc tool_text :=
  try_except (direct_scrape firecrawl_app url)
    [ (isinstance_Exception, fun e => verified_fallback tavily_client url);
      (isinstance_Exception, fun e => summary_fallback tavily_client url e) ].

End App.

(* ====================================================================== *)
(** ** The console

    [print(text)] writes to [sys.stdout] and raises when the stream cannot
    take the text: a UnicodeEncodeError, which is a ValueError, when the
    encoding of the stream has no code for a character of it. *)
Record Console := {
  print : str -> exc unit
}.

Section Printing.

Variable rt : Runtime.
Variable console : Console.

(** Line 85. *)
Definition scrape_notice (url : str) : str :=
  u "🕵️‍♂️ Firecrawl 스크래핑 시도: " ++ url.

(** Line 114. *)
Definition fallback_notice : str :=
  u "⚠️ 직접 접속 실패. 검색 우회 시도 중...".

(** Line 149. *)
Definition summary_notice (e : exn) : str :=
  u "⚠️ 스크래핑 실패 (" ++ exn_str rt e ++ u "). Tavily 우회 검색을 시작합니다.".

(** firecrawl_scrape_tool (app.py, lines 76-180) with its [print] calls:
    the first inside the outer [try], the other two at the head of the
    [except] clauses, outside the inner [try]. *)
Definition firecrawl_scrape_tool_on (firecrawl_app : FirecrawlApp)
    (tavily_client : TavilyClient) (url : str) : exc tool_text :=
  try_except
    (_ <- print console (scrape_notice url);;
     direct_scrape rt firecrawl_app url)
    [ (isinstance_Exception,
       fun e =>
         _ <- print console fallback_notice;;
         verified_fallback rt tavily_client url);
      (isinstance_Exception,
       fun e =>
         _ <- print console (summary_notice e);;
         summary_fallback rt tavily_client url e) ].

End Printing.

(* ====================================================================== *)
(** ** Vocabulary of the statements *)

(** [a] occurs in [b]. *)
Definition Substring (a b : str) : Prop := exists p q, b = p ++ a ++ q.

(** [Removed tok s r]: [r] is [s] with every occurrence of [tok] taken out,
    the occurrences being read from the left: either [tok] does not occur
    in [s], or [s] is [pre ++ tok ++ post] with no occurrence of [tok]
    starting inside [pre], and the removal goes on in [post]. *)
Inductive Removed (tok : str) : str -> str -> Prop :=
| Removed_none s :
    ~ Substring tok s -> Removed tok s s
| Removed_next pre post r :
    (forall a b, pre = a ++ b -> b <> [] ->
                 startswith tok (b ++ tok ++ post) = false) ->
    Removed tok post r ->
    Removed tok (pre ++ tok ++ post) (pre ++ r).


(** A field of an outcome document. *)
Definition field (k : str) (doc : pyval) : option pyval :=
  match doc with
  | PDict d => lookup k d
  | _ => None
  end.

(** The field is there and holds a non-empty value. *)
Definition populated (k : str) (doc : pyval) : bool :=
  match field k doc with
  | Some v => truthy v
  | None => false
  end.

(** A search result whose URL is a string that does not match the target
    [url]. *)
Definition unrelated (rt : Runtime) (url : str) (res : pyval) : Prop :=
  exists candidate,
    py_get res (u "url") (PStr (u "")) = Ok (PStr candidate)
    /\ is_match rt candidate url = false.

(** The outcome of a direct scrape. *)
Definition success_outcome (content : pyval) : pyval :=
  PDict [ (u "status", PStr (u "success"));
          (u "method", PStr (u "direct_scrape"));
          (u "content", content) ].

(** The outcome of a verified fallback. *)
Definition verified_outcome (matched_content : list str) : pyval :=
  PDict [ (u "status", PStr (u "fallback_success"));
          (u "method", PStr (u "verified_search_cache"));
          (u "content", PStr (join (nl ++ nl) matched_content)) ].

(** A runtime to run the examples on: containers print as an ellipsis,
    interpreter errors have no text, bracketed hosts are accepted and NFKC
    never rejects. *)
Definition example_runtime : Runtime :=
  {| container_repr := fun _ => u "...";
     interp_str := fun _ => u "";
     bracketed_netloc_valid := fun _ => true;
     nfkc_rejects := fun _ => false |}.

(** *** Inputs of the examples *)

Module Examples.

Definition story : str := u "https://news.example.com/story/42".

Definition letters (n : nat) : str := repeat (chr "x") n.

(** Firecrawl answers with a dict holding [n] characters of markdown. *)
Definition firecrawl_markdown (n : nat) : FirecrawlApp :=
  {| scrape_url :=
       Some (fun _ _ => Ok (PDict [ (u "markdown", PStr (letters n)) ]));
     scrape := None |}.



Definition search_result (link heading body : string) : pyval :=
  PDict [ (u "url", PStr (u link));
          (u "title", PStr (u heading));
          (u "content", PStr (u body)) ].

Definition three_unrelated : list pyval :=
  [ search_result "https://other.com/x" "Other" "Something else";
    search_result "https://blog.example.org/post" "A post" "Unrelated text";
    search_result "https://news.example.com/story/7" "Story 7" "Another story" ].

Definition tavily_unrelated : TavilyClient :=
  {| search := fun _ _ => Ok (PDict [ (u "results", PList three_unrelated) ]) |}.

Definition firecrawl_blocked : FirecrawlApp :=
  {| scrape_url := Some (fun _ _ => Raise (Raised ClientError (u "403")));
     scrape := None |}.

Definition tavily_mixed : TavilyClient :=
  {| search := fun _ _ =>
       Ok (PDict [ (u "results",
                    PList [ search_result
                              "https://news.example.com/story/42?ref=home"
                              "Story 42" "The body";
                            search_result "https://other.com/x" "Other"
                              "Something else" ]) ]) |}.

Definition tavily_down : TavilyClient :=
  {| search := fun _ _ => Raise (Raised ClientError (u "connection refused")) |}.

Definition long_paper : ArxivResult :=
  {| title := u "A paper";
     summary := repeat (chr "a") 300;
     published := {| strftime := fun _ => u "2024-05-17" |};
     pdf_url := Some (u "http://arxiv.org/pdf/2405.00001") |}.

Definition arxiv_one : Arxiv :=
  {| Search_results := fun _ _ _ => Ok [long_paper] |}.

End Examples.

(* ====================================================================== *)
(** ** tavily_search_tool (app.py, lines 40-46) *)

Definition tavily_search_tool (rt : Runtime) (tavily_client : TavilyClient)
    (query : str) : exc tool_text :=
  try_except
    (response <- search tavily_client query (u "advanced");;
     results <- py_get response (u "results") (PList []);;
     top <- py_slice_to 3 results;;
     json_dumps top)
    [ (isinstance_Exception,
       fun e => Ok (Text (u "Error: " ++ exn_str rt e))) ].

(* ====================================================================== *)
(** ** The conversation turn (app.py, lines 183-189 and 339-446)

    Streamlit's display calls ([st.markdown], [st.error], the placeholder)
    are taken to show their argument and return. *)

(** [tool_call.id], [tool_call.function.name] and
    [tool_call.function.arguments] of a tool call of the model. *)
Record ToolCall := {
  call_id : str;
  function_name : str;
  function_arguments : str
}.

(** [response.choices[0].message]: the reply of the model. *)
Record ChatCompletionMessage := {
  reply_content : option str;
  reply_tool_calls : option (list ToolCall)
}.

(** An element of [st.session_state.messages]: a dict with a role and a
    content, the dict of a tool result, or the object of a reply. *)
Inductive message :=
| Entry (role : str) (content : option str)
| ToolEntry (tool_call_id name : str) (content : tool_text)
| Reply (m : ChatCompletionMessage).

(** [client.chat.completions.create(...)] followed by
    [.choices[0].message]; the flag tells whether the tools are offered. *)
Record OpenAI := {
  create : list message -> bool -> exc ChatCompletionMessage
}.

(** The four functions of [available_functions]. *)
Inductive tool_function :=
| Fn_get_current_time
| Fn_tavily_search_tool
| Fn_arxiv_search_tool
| Fn_firecrawl_scrape_tool.

(** What the turn takes from its surroundings. *)
Record Host := {
  (** [json.loads] *)
  json_loads : str -> exc pyval;
  (** [datetime.datetime.now()], read while the call of that id is
      served. *)
  now : str -> datetime;
  (** A tool called with an argument that is not a [str]. *)
  call_with_other : tool_function -> pyval -> exc tool_text
}.

(** [d[k]] and [d.get(k)] on a dict of the program with [str] keys. *)
Fixpoint assoc {A : Type} (k : str) (d : list (str * A)) : option A :=
  match d with
  | [] => None
  | (k', v) :: rest => if str_eqb k k' then Some v else assoc k rest
  end.

Definition available_functions : list (str * tool_function) :=
  [ (u "get_current_time", Fn_get_current_time);
    (u "tavily_search_tool", Fn_tavily_search_tool);
    (u "arxiv_search_tool", Fn_arxiv_search_tool);
    (u "firecrawl_scrape_tool", Fn_firecrawl_scrape_tool) ].

Definition tool_name_map : list (str * str) :=
  [ (u "tavily_search_tool", u "🌐 Tavily Search (웹 검색)");
    (u "arxiv_search_tool", u "📚 ArXiv Search (논문 검색)");
    (u "firecrawl_scrape_tool", u "🔥 Firecrawl Scrape (웹 상세분석)");
    (u "get_current_time", u "⏰ Current Time (시간 확인)") ].

(** [tool_name_map.get(function_name, function_name)] *)
Definition friendly_name (function_name : str) : str :=
  match assoc function_name tool_name_map with
  | Some name => name
  | None => function_name
  end.

(** Lines 406-407. *)
Definition note_tool (friendly : str) (used_tools_display : list str)
    : list str :=
  if existsb (str_eqb friendly) used_tools_display
  then used_tools_display
  else used_tools_display ++ [friendly].

(** What the assistant's bubble ends up showing. *)
Inductive screen :=
| Markdown (body : option str)
| ErrorBox (text : str).

Section Turn.

Variable rt : Runtime.
Variable host : Host.
Variable console : Console.
Variable firecrawl_app : FirecrawlApp.
Variable tavily_client : TavilyClient.
Variable arxiv : Arxiv.
Variable client : OpenAI.

(** get_current_time (lines 36-38), for the call [id]. *)
Definition get_current_time (id : str) : str :=
  strftime (now host id) (u "%Y-%m-%d %H:%M:%S").

(** The name of the one parameter of a tool. *)
Definition parameter (fn : tool_function) : option str :=
  match fn with
  | Fn_get_current_time => None
  | Fn_tavily_search_tool | Fn_arxiv_search_tool => Some (u "query")
  | Fn_firecrawl_scrape_tool => Some (u "url")
  end.

(** A tool applied to its argument. *)
Definition call_one (fn : tool_function) (argument : pyval) : exc tool_text :=
  match fn, argument with
  | Fn_tavily_search_tool, PStr query =>
      tavily_search_tool rt tavily_client query
  | Fn_arxiv_search_tool, PStr query => arxiv_search_tool rt arxiv query
  | Fn_firecrawl_scrape_tool, PStr url =>
      firecrawl_scrape_tool_on rt console firecrawl_app tavily_client url
  | _, _ => call_with_other host fn argument
  end.

(** [function_to_call()] *)
Definition call_no_arguments (fn : tool_function) (id : str) : exc tool_text :=
  match parameter fn with
  | None => Ok (Text (get_current_time id))
  | Some _ => Raise (Interp TypeError)
  end.

(** [function_to_call] called with [function_args] as keyword arguments:
    the arguments must be a dict with the parameters of the function as
    its keys, one key for one parameter. *)
Definition call_keywords (fn : tool_function) (id : str)
    (function_args : pyval) : exc tool_text :=
  match function_args with
  | PDict d =>
      match parameter fn, d with
      | None, [] => Ok (Text (get_current_time id))
      | Some p, [(k, v)] =>
          if str_eqb k p then call_one fn v else Raise (Interp TypeError)
      | _, _ => Raise (Interp TypeError)
      end
  | _ => Raise (Interp TypeError)
  end.

(** Lines 399-421: the loop over the tool calls.  The messages are a
    session value that keeps what was appended when the loop raises;
    [used_tools_display] is a local. *)
Fixpoint run_tool_calls (tool_calls : list ToolCall)
    (messages : list message) (used_tools_display : list str)
    : list message * exc (list str) :=
  match tool_calls with
  | [] => (messages, Ok used_tools_display)
  | tool_call :: rest =>
      let function_name := function_name tool_call in
      match assoc function_name available_functions with
      | None => (messages, Raise (Interp KeyError))
      | Some function_to_call =>
          match json_loads host (function_arguments tool_call) with
          | Raise e => (messages, Raise e)
          | Ok function_args =>
              let used_tools_display :=
                note_tool (friendly_name function_name) used_tools_display in
              match
                (if str_eqb function_name (u "get_current_time")
                 then call_no_arguments function_to_call (call_id tool_call)
                 else call_keywords function_to_call (call_id tool_call)
                        function_args)
              with
              | Raise e => (messages, Raise e)
              | Ok function_response =>
                  run_tool_calls rest
                    (messages ++ [ToolEntry (call_id tool_call) function_name
                                    function_response])
                    used_tools_display
              end
          end
      end
  end.

(** Lines 431-434. *)
Definition tools_footer (used_tools_display : list str) : str :=
  nl ++ nl ++ u "---" ++ nl ++ u "**🛠 사용된 도구:** "
    ++ join (u ", ") used_tools_display.

Definition add_footer (final_content : option str)
    (used_tools_display : list str) : exc (option str) :=
  if negb (Nat.eqb (length used_tools_display) 0) then
    match final_content with
    | Some text => Ok (Some (text ++ tools_footer used_tools_display))
    | None => Raise (Interp TypeError)
    end
  else Ok final_content.

(** Line 446. *)
Definition error_box (e : exn) : screen :=
  ErrorBox (u "오류 발생: " ++ exn_str rt e).

(** Lines 379-446: the reply to the messages, the prompt of the user being
    the last of them. *)
Definition assistant_reply (messages : list message)
    : list message * screen :=
  match create client messages true with
  | Raise e => (messages, error_box e)
  | Ok response_message =>
      match reply_tool_calls response_message with
      | Some (first :: others) =>
          let messages := messages ++ [Reply response_message] in
          match run_tool_calls (first :: others) messages [] with
          | (messages, Raise e) => (messages, error_box e)
          | (messages, Ok used_tools_display) =>
              match create client messages false with
              | Raise e => (messages, error_box e)
              | Ok final_response =>
                  match add_footer (reply_content final_response)
                          used_tools_display with
                  | Raise e => (messages, error_box e)
                  | Ok final_content =>
                      (messages ++ [Entry (u "assistant") final_content],
                       Markdown final_content)
                  end
              end
          end
      | _ =>
          let final_content := reply_content response_message in
          (messages ++ [Entry (u "assistant") final_content],
           Markdown final_content)
      end
  end.

(** Lines 369-446: a prompt of the user; nothing happens on an empty one. *)
Definition chat_turn (messages : list message) (prompt : str)
    : list message * option screen :=
  if Nat.eqb (length prompt) 0 then (messages, None)
  else
    let (messages, shown) :=
      assistant_reply (messages ++ [Entry (u "user") (Some prompt)]) in
    (messages, Some shown).

End Turn.

(** Lines 353-366: the history as displayed, a role and a text for each
    message shown. *)
Definition message_role (m : message) : str :=
  match m with
  | Entry role _ => role
  | ToolEntry _ _ _ => u "tool"
  | Reply _ => u "assistant"
  end.

Definition message_content (m : message) : option tool_text :=
  match m with
  | Entry _ content => option_map Text content
  | ToolEntry _ _ content => Some content
  | Reply r => option_map Text (reply_content r)
  end.

(** [bool(text)]; the text [json.dumps] makes of a document is never
    empty. *)
Definition text_truthy (t : tool_text) : bool :=
  match t with
  | Json _ => true
  | Text s => negb (Nat.eqb (length s) 0)
  end.

Definition render (messages : list message) : list (str * tool_text) :=
  flat_map
    (fun m =>
       match message_content m with
       | Some content =>
           if negb (str_eqb (message_role m) (u "system"))
              && text_truthy content
           then [(message_role m, content)]
           else []
       | None => []
       end)
    messages.

(* ====================================================================== *)
(** ** Vocabulary of the further statements *)






(** What [urlsplit] removes inside a URL: the tab, carriage return and
    line feed characters. *)
Definition strip_unsafe (url : str) : str :=
  fold_left (fun s b => str_replace b [] s) UNSAFE_URL_BYTES_TO_REMOVE url.

(** What [urlsplit] does with a URL once its scheme and the "//" after it
    are taken off: [rest] is the text after "//". *)
Definition urlsplit_authority (rt : Runtime) (scheme rest : str)
    : exc ParseResult :=
  let (netloc, rest) := span_until (u "/?#") rest in
  _ <- check_brackets rt netloc;;
  let (url, fragment) := split_off (chr "#") rest in
  let (url, query) := split_off (chr "?") url in
  _ <- checknetloc rt netloc;;
  Ok {| scheme := scheme; netloc := netloc; path := url; params := [];
        query := query; fragment := fragment |}.

(** The message the loop appends for a tool call and its response. *)
Definition tool_entry (p : ToolCall * tool_text) : message :=
  ToolEntry (call_id (fst p)) (function_name (fst p)) (snd p).

(** *** Inputs of the further examples *)

Module TurnExamples.

Import Examples.

Definition tavily_no_url : TavilyClient :=
  {| search := fun _ _ =>
       Ok (PDict [ (u "results",
                    PList [ PDict [ (u "title", PStr (u "Elsewhere"));
                                    (u "content", PStr (u "Not the page")) ] ]) ]) |}.




Definition four_results : list pyval :=
  [ search_result "https://a.example/1" "One" "1";
    search_result "https://a.example/2" "Two" "2";
    search_result "https://a.example/3" "Three" "3";
    search_result "https://a.example/4" "Four" "4" ].

Definition tavily_four : TavilyClient :=
  {| search := fun _ _ => Ok (PDict [ (u "results", PList four_results) ]) |}.




(** The double quote character. *)
Definition quote : str := [34%N].

(** The JSON text of the arguments of a scrape call on [story]. *)
Definition story_arguments : str :=
  u "{" ++ quote ++ u "url" ++ quote ++ u ": " ++ quote ++ story ++ quote
    ++ u "}".

(** A host whose [json.loads] knows two texts, whose clock stands still,
    and in which a tool called with another argument raises. *)
Definition example_host : Host :=
  {| json_loads := fun text =>
       if str_eqb text story_arguments
       then Ok (PDict [ (u "url", PStr story) ])
       else if str_eqb text (u "{}") then Ok (PDict [])
       else Raise (Raised ValueError (u "Expecting value"));
     now := fun _ => {| strftime := fun _ => u "2025-01-02 03:04:05" |};
     call_with_other := fun _ _ => Raise (Interp TypeError) |}.

(** A console that takes every text, and one whose encoding is ASCII. *)
Definition utf8_console : Console :=
  {| print := fun _ => Ok tt |}.

Definition ascii_console : Console :=
  {| print := fun text =>
       if isascii text then Ok tt
       else Raise (Raised ValueError
                     (u "'ascii' codec can't encode characters")) |}.

Definition scrape_call : ToolCall :=
  {| call_id := u "call_1";
     function_name := u "firecrawl_scrape_tool";
     function_arguments := story_arguments |}.

Definition time_call : ToolCall :=
  {| call_id := u "call_2";
     function_name := u "get_current_time";
     function_arguments := u "{}" |}.

Definition unknown_call : ToolCall :=
  {| call_id := u "call_3";
     function_name := u "send_email";
     function_arguments := u "{}" |}.

Definition tool_reply (calls : list ToolCall) : ChatCompletionMessage :=
  {| reply_content := None; reply_tool_calls := Some calls |}.

Definition text_reply (text : string) : ChatCompletionMessage :=
  {| reply_content := Some (u text); reply_tool_calls := None |}.

(** A model that asks for [calls] when it is offered the tools and answers
    with [final] when it is not. *)
Definition model (calls : list ToolCall) (final : ChatCompletionMessage)
    : OpenAI :=
  {| create := fun _ with_tools =>
       if with_tools then Ok (tool_reply calls) else Ok final |}.

Definition history : list message :=
  [ Entry (u "system") (Some (u "You are a research agent.")) ].

Definition asked : list message :=
  history ++ [ Entry (u "user") (Some (u "Summarise the story")) ].

End TurnExamples.

(** An outcome document as the tool builds them: a status out of three,
    the content populated exactly on success and fallback_success, the
    message exactly on error, one of the two and not the other. *)
Definition well_formed_outcome (doc : pyval) : Prop :=
  exists status,
    field (u "status") doc = Some (PStr status)
    /\ (status = u "success" \/ status = u "fallback_success"
        \/ status = u "error")
    /\ (populated (u "content") doc = true <->
          status = u "success" \/ status = u "fallback_success")
    /\ (populated (u "message") doc = true <-> status = u "error")
    /\ xorb (populated (u "content") doc) (populated (u "message") doc) = true
    /\ (status = u "error" -> field (u "content") doc = None)
    /\ (status <> u "error" -> field (u "message") doc = None).

(** Lines 400-413: what the loop does to get the response of one call; it
    raises for a function that is not in the table, for arguments that do
    not parse, and when the call itself raises. *)
Definition serve_call (rt : Runtime) (host : Host) (console : Console)
    (firecrawl_app : FirecrawlApp) (tavily_client : TavilyClient)
    (arxiv : Arxiv) (tool_call : ToolCall) : exc tool_text :=
  match assoc (function_name tool_call) available_functions with
  | None => Raise (Interp KeyError)
  | Some function_to_call =>
      match json_loads host (function_arguments tool_call) with
      | Raise e => Raise e
      | Ok function_args =>
          if str_eqb (function_name tool_call) (u "get_current_time")
          then call_no_arguments host function_to_call (call_id tool_call)
          else call_keywords rt host console firecrawl_app tavily_client arxiv
                 function_to_call (call_id tool_call) function_args
      end
  end.

(* ====================================================================== *)
(** * Properties *)

(** ** Strings *)

Lemma str_eqb_eq (a b : str) : str_eqb a b = true <-> a = b.
Proof.
  revert b. induction a as [|x a IH]; intros [|y b]; simpl;
    try (split; [discriminate|congruence]); [tauto|].
  rewrite andb_true_iff, N.eqb_eq, IH. split.
  - intros [-> ->]. reflexivity.
  - intros H. injection H as -> ->. tauto.
Qed.

Lemma startswith_app (p q : str) : startswith p (p ++ q) = true.
Proof.
  induction p as [|c p IH]; simpl.
  - reflexivity.
  - now rewrite N.eqb_refl, IH.
Qed.

Lemma startswith_inv (p s : str) :
  startswith p s = true -> exists q, s = p ++ q.
Proof.
  revert s. induction p as [|c p IH]; intros s H.
  - now exists s.
  - destruct s as [|x s]; simpl in H; [discriminate|].
    apply andb_true_iff in H as [Hc Hs]. apply N.eqb_eq in Hc.
    destruct (IH _ Hs) as [q ->]. exists q. now subst.
Qed.

Lemma startswith_iff (p s : str) :
  startswith p s = true <-> exists q, s = p ++ q.
Proof.
  split; [apply startswith_inv|].
  intros [q ->]. apply startswith_app.
Qed.

Lemma contains_iff (a b : str) : contains a b = true <-> Substring a b.
Proof.
  unfold Substring. split.
  - induction b as [|c b IH]; simpl; intros H.
    + apply startswith_inv in H as [q Hq]. exists [], q. exact Hq.
    + apply orb_true_iff in H as [H|H].
      * apply startswith_inv in H as [q Hq]. exists [], q. exact Hq.
      * destruct (IH H) as (p & q & ->). now exists (c :: p), q.
  - intros (p & q & ->). induction p as [|c p IH]; simpl.
    + destruct (a ++ q) eqn:E; simpl; rewrite <- E, startswith_app;
        reflexivity.
    + rewrite IH. apply orb_true_r.
Qed.


(** ** The content verifier *)

Section Verifier.

Variable rt : Runtime.

(** C4: [is_match candidate target] holds exactly when one of the two
    normalized URLs occurs in the other: containment in either direction,
    not equality, as two URLs with different normalized forms can match.
    The mobile and the www address of one page match; two pages of
    different sites do not. *)
Theorem is_match_bidirectional_containment :
  (forall candidate target,
      is_match rt candidate target = true <->
      Substring (normalize_url rt target) (normalize_url rt candidate) \/
      Substring (normalize_url rt candidate) (normalize_url rt target))
  /\ (is_match rt (u "https://example.com/a/b") (u "https://example.com/a")
        = true
      /\ normalize_url rt (u "https://example.com/a/b")
         <> normalize_url rt (u "https://example.com/a"))
  /\ is_match rt (u "https://m.example.com/a/b")
                 (u "https://www.example.com/a/b") = true
  /\ is_match rt (u "https://example.com/a") (u "https://other.com/x") = false.
Proof.
  split; [|split; [split|split]].
  - intros candidate target. unfold is_match.
    rewrite orb_true_iff, !contains_iff. reflexivity.
  - vm_compute. reflexivity.
  - vm_compute. discriminate.
  - vm_compute. reflexivity.
  - vm_compute. reflexivity.
Qed.

(** C10: [is_match] is symmetric in its two URLs. *)
Theorem is_match_symmetric (a b : str) :
  is_match rt a b = is_match rt b a.
Proof.
  unfold is_match. apply orb_comm.
Qed.

End Verifier.

(** ** [str.replace] takes out every occurrence *)

Lemma replace_from_skip (old new l rest : str) :
  replace_from old new (length l) (l ++ rest) = replace_from old new 0 rest.
Proof.
  induction l as [|c l IH]; simpl.
  - destruct rest; reflexivity.
  - exact IH.
Qed.

Lemma replace_from_hit (old new post : str) :
  old <> [] ->
  replace_from old new 0 (old ++ post) = new ++ replace_from old new 0 post.
Proof.
  destruct old as [|c old']; [congruence|]. intros _.
  change ((c :: old') ++ post) with (c :: (old' ++ post)).
  cbn [replace_from].
  change (c :: old' ++ post) with ((c :: old') ++ post).
  rewrite startswith_app. f_equal.
  replace (length (c :: old') - 1) with (length old') by (simpl; lia).
  apply replace_from_skip.
Qed.

Lemma replace_from_miss (old new : str) (c : char) (t : str) :
  startswith old (c :: t) = false ->
  replace_from old new 0 (c :: t) = c :: replace_from old new 0 t.
Proof.
  intros H. cbn [replace_from]. now rewrite H.
Qed.

Lemma str_replace_nonempty (old new s : str) :
  old <> [] -> str_replace old new s = replace_from old new 0 s.
Proof.
  destruct old; [congruence|reflexivity].
Qed.

Lemma not_substring_nil (tok : str) : tok <> [] -> ~ Substring tok [].
Proof.
  intros Hne (p & q & H). symmetry in H.
  apply app_eq_nil in H as [_ H]. apply app_eq_nil in H as [H _].
  contradiction.
Qed.

Lemma Removed_cons (tok : str) (c : char) (t r : str) :
  startswith tok (c :: t) = false ->
  Removed tok t r -> Removed tok (c :: t) (c :: r).
Proof.
  intros Hmiss HR. destruct HR as [t Hno | pre post r Hfirst HR].
  - apply Removed_none. intros (p & q & E). destruct p as [|x p].
    + simpl in E. rewrite E, startswith_app in Hmiss. discriminate.
    + simpl in E. injection E as _ E. apply Hno. now exists p, q.
  - change (c :: pre ++ tok ++ post) with ((c :: pre) ++ tok ++ post).
    change (c :: pre ++ r) with ((c :: pre) ++ r).
    apply Removed_next; [|exact HR].
    intros a b E Hb. destruct a as [|x a].
    + simpl in E. subst b. exact Hmiss.
    + simpl in E. injection E as _ E. now apply (Hfirst a b).
Qed.

(** [Removed tok s] determines its result. *)
Lemma Removed_functional (tok s r1 r2 : str) :
  Removed tok s r1 -> Removed tok s r2 -> r1 = r2.
Proof.
  intros H1. revert r2.
  induction H1 as [s Hno | pre post r Hfirst HR IH]; intros r2 H2.
  - inversion H2 as [s' Hno' | pre' post' r' Hfirst' HR' E]; subst;
      [reflexivity|].
    exfalso. apply Hno. now exists pre', post'.
  - inversion H2 as [s' Hno' | pre' post' r' Hfirst' HR' E]; subst.
    + exfalso. apply Hno'. now exists pre, post.
    + apply app_eq_app in E as [l [[Ep El] | [Ep El]]].
      * destruct l as [|c l].
        -- rewrite app_nil_r in Ep. subst pre'. simpl in El.
           apply app_inv_head in El. subst post'. f_equal. now apply IH.
        -- exfalso.
           assert (Hs : startswith tok ((c :: l) ++ tok ++ post') = false)
             by (apply (Hfirst' pre (c :: l)); [exact Ep|discriminate]).
           rewrite <- El, startswith_app in Hs. discriminate.
      * destruct l as [|c l].
        -- rewrite app_nil_r in Ep. subst pre'. simpl in El.
           apply app_inv_head in El. subst post'. f_equal. now apply IH.
        -- exfalso.
           assert (Hs : startswith tok ((c :: l) ++ tok ++ post) = false)
             by (apply (Hfirst pre' (c :: l)); [exact Ep|discriminate]).
           rewrite <- El, startswith_app in Hs. discriminate.
Qed.

Lemma replace_from_Removed (tok : str) :
  tok <> [] -> forall s, Removed tok s (replace_from tok [] 0 s).
Proof.
  intros Hne s. remember (length s) as n eqn:Hn.
  assert (Hle : length s <= n) by lia. clear Hn. revert s Hle.
  induction n as [|n IH]; intros s Hle.
  - destruct s; [|simpl in Hle; lia].
    apply Removed_none. now apply not_substring_nil.
  - destruct s as [|c t].
    + apply Removed_none. now apply not_substring_nil.
    + destruct (startswith tok (c :: t)) eqn:Hs.
      * apply startswith_inv in Hs as [post E]. rewrite E.
        rewrite replace_from_hit by exact Hne.
        change ([] ++ replace_from tok [] 0 post)
          with (([] : str) ++ replace_from tok [] 0 post).
        change (tok ++ post) with (([] : str) ++ tok ++ post).
        apply Removed_next.
        -- intros a b E' Hb. symmetry in E'.
           apply app_eq_nil in E' as [_ E']. contradiction.
        -- apply IH.
           assert (length (c :: t) = length tok + length post)
             by (rewrite E; apply length_app).
           destruct tok; [congruence|]. simpl in *. lia.
      * rewrite replace_from_miss by exact Hs.
        apply Removed_cons; [exact Hs|]. apply IH. simpl in Hle. lia.
Qed.

Lemma str_replace_Removed (tok s : str) :
  tok <> [] -> Removed tok s (str_replace tok [] s).
Proof.
  intros Hne. rewrite str_replace_nonempty by exact Hne.
  now apply replace_from_Removed.
Qed.

(** ** Characters of the parts of a parsed URL *)












(** ** The URL normalizer *)

Section Normalizer.

Variable rt : Runtime.



Lemma normalize_url_parsed (url : str) (parsed : ParseResult) :
  urlparse rt url = Ok parsed ->
  normalize_url rt url =
    str_replace (u "m.") [] (str_replace (u "www.") [] (netloc parsed))
      ++ path parsed.
Proof.
  intros H. unfold normalize_url. now rewrite H.
Qed.


(** C6: when the URL parses, every occurrence of "www." is taken out of the
    parsed host, wherever it stands, then every occurrence of "m." out of
    what is left, and the result is followed by the path; when parsing
    fails, the URL comes back unchanged.  ([normalize_url] is a total
    function: nothing is raised.) *)
Theorem normalize_url_strips_tokens_anywhere (url : str) :
  (forall parsed, urlparse rt url = Ok parsed ->
     exists host host',
       Removed (u "www.") (netloc parsed) host
       /\ Removed (u "m.") host host'
       /\ normalize_url rt url = host' ++ path parsed)
  /\ (forall e, urlparse rt url = Raise e -> normalize_url rt url = url).
Proof.
  split.
  - intros parsed H.
    exists (str_replace (u "www.") [] (netloc parsed)),
           (str_replace (u "m.") []
              (str_replace (u "www.") [] (netloc parsed))).
    split; [|split].
    + apply str_replace_Removed. vm_compute. discriminate.
    + apply str_replace_Removed. vm_compute. discriminate.
    + now apply normalize_url_parsed.
  - intros e H. unfold normalize_url. now rewrite H.
Qed.

End Normalizer.

(** ** The retrieval engine *)

Ltac str_neq :=
  let H := fresh in intros H; vm_compute in H; discriminate.

Section Retrieval.

Variable rt : Runtime.
Variable firecrawl_app : FirecrawlApp.
Variable tavily_client : TavilyClient.
Variable url : str.

Local Abbreviation tool := (firecrawl_scrape_tool rt firecrawl_app tavily_client url).
Local Abbreviation fallback := (verified_fallback rt tavily_client url).

Lemma isinstance_Exception_all (e : exn) : isinstance_Exception e = true.
Proof. destruct e as [[] ?|[]]; reflexivity. Qed.

(** Only the first of the two [except Exception] clauses ever runs. *)
Lemma tool_first_clause :
  tool = match direct_scrape rt firecrawl_app url with
         | Ok t => Ok t
         | Raise _ => fallback
         end.
Proof.
  unfold firecrawl_scrape_tool, try_except.
  destruct (direct_scrape rt firecrawl_app url) as [t|e]; [reflexivity|].
  cbn [dispatch]. now rewrite isinstance_Exception_all.
Qed.

Lemma tool_of_raise (e : exn) :
  direct_scrape rt firecrawl_app url = Raise e -> tool = fallback.
Proof. intros H. now rewrite tool_first_clause, H. Qed.


Lemma too_short_false (content : pyval) :
  too_short content = Ok false ->
  truthy content = true
  /\ exists n, py_len content = Ok n /\ 100 <= n.
Proof.
  unfold too_short. destruct (truthy content); simpl; [|discriminate].
  destruct (py_len content) as [n|]; simpl; [|discriminate].
  intros H. injection H as H. apply Nat.ltb_ge in H.
  split; [reflexivity|]. now exists n.
Qed.

Lemma slice_of_long (content head : pyval) (n : nat) :
  py_len content = Ok n -> 100 <= n ->
  py_slice_to 4000 content = Ok head -> truthy head = true.
Proof.
  intros Hn Hle Hs.
  destruct content as [| |s|s|s|]; cbn [py_len py_slice_to] in Hn, Hs;
    try discriminate;
    assert (En : n = length s) by congruence;
    [ assert (Eh : head = PStr (firstn 4000 s)) by congruence
    | assert (Eh : head = PList (firstn 4000 s)) by congruence ];
    rewrite Eh; cbn [truthy];
    rewrite length_firstn; apply negb_true_iff, Nat.eqb_neq; lia.
Qed.

Lemma direct_scrape_inv (t : tool_text) :
  direct_scrape rt firecrawl_app url = Ok t ->
  exists head, t = Json (success_outcome head) /\ truthy head = true.
Proof.
  unfold direct_scrape.
  destruct (call_scrape firecrawl_app url) as [r|]; simpl; [|discriminate].
  destruct (extract_content rt r) as [content|]; simpl; [|discriminate].
  destruct (too_short content) as [[|]|] eqn:Hshort; simpl; try discriminate.
  destruct (py_slice_to 4000 content) as [head|] eqn:Hs; simpl;
    [|discriminate].
  unfold json_dumps. destruct (json_serializable _); [|discriminate].
  intros H. injection H as <-. exists head. split; [reflexivity|].
  apply too_short_false in Hshort as (_ & n & Hn & Hle).
  exact (slice_of_long _ Hn Hle Hs).
Qed.




Lemma matched_entry_nonempty (t c : pyval) : matched_entry rt t c <> [].
Proof.
  unfold matched_entry.
  destruct (u "- 제목: ") eqn:E; [vm_compute in E|]; discriminate.
Qed.

Lemma collect_matches_nonempty (target_norm : str) (rs : list pyval) :
  forall acc m,
    collect_matches rt target_norm rs acc = Ok m ->
    Forall (fun s => s <> []) acc -> Forall (fun s => s <> []) m.
Proof.
  induction rs as [|res rest IH]; intros acc m H Hacc; simpl in H.
  - injection H as <-. exact Hacc.
  - destruct (py_get res (u "url") (PStr (u ""))) as [res_url|];
      cbn [bind] in H; [|discriminate].
    destruct (url_overlap _ _) as [[|]|]; cbn [bind] in H; try discriminate.
    + destruct (py_get res (u "title") PNone) as [t|]; cbn [bind] in H;
        [|discriminate].
      destruct (py_get res (u "content") PNone) as [c|]; cbn [bind] in H;
        [|discriminate].
      apply (IH _ _ H). apply Forall_app. split; [exact Hacc|].
      constructor; [apply matched_entry_nonempty|constructor].
    + exact (IH _ _ H Hacc).
Qed.

(** The three ways the fallback stage ends. *)
Lemma verified_fallback_cases :
  fallback = Ok (Json refusal)
  \/ fallback = Ok (Json collection_failed)
  \/ exists matched first,
       fallback = Ok (Json (verified_outcome (first :: matched)))
       /\ first <> [].
Proof.
  unfold verified_fallback, try_except.
  assert (Hfail : forall e : exn,
    dispatch [(isinstance_Exception,
               fun _ : exn => json_dumps collection_failed)] e
    = Ok (Json collection_failed)).
  { intros e. cbn [dispatch]. now rewrite isinstance_Exception_all. }
  destruct (search tavily_client url (u "advanced")) as [resp|e];
    cbn [bind]; [|right; left; apply Hfail].
  destruct (py_get resp (u "results") (PList [])) as [raw|e];
    cbn [bind]; [|right; left; apply Hfail].
  destruct (py_iter raw) as [items|e]; cbn [bind];
    [|right; left; apply Hfail].
  destruct (collect_matches rt (normalize_url rt url) items [])
    as [m|e] eqn:Hm; cbn [bind]; [|right; left; apply Hfail].
  apply collect_matches_nonempty in Hm; [|constructor].
  destruct m as [|first matched]; simpl.
  - left. reflexivity.
  - right. right. exists matched, first. split; [reflexivity|].
    now inversion Hm.
Qed.

(** Every way the tool ends. *)
Lemma tool_cases :
  (exists head, tool = Ok (Json (success_outcome head)) /\ truthy head = true)
  \/ tool = Ok (Json refusal)
  \/ tool = Ok (Json collection_failed)
  \/ exists matched first,
       tool = Ok (Json (verified_outcome (first :: matched)))
       /\ first <> [].
Proof.
  rewrite tool_first_clause.
  destruct (direct_scrape rt firecrawl_app url) as [t|e] eqn:Hd.
  - left. apply direct_scrape_inv in Hd as (head & -> & Hh). now exists head.
  - right. exact verified_fallback_cases.
Qed.

Lemma join_cons_nonempty (sep first : str) (rest : list str) :
  first <> [] -> join sep (first :: rest) <> [].
Proof.
  intros Hne. cbn [join]. destruct rest as [|p rest]; [exact Hne|].
  destruct first; [congruence|discriminate].
Qed.

Lemma populated_content_success (head : pyval) :
  populated (u "content") (success_outcome head) = truthy head.
Proof. reflexivity. Qed.

Lemma populated_content_verified (first : str) (matched : list str) :
  first <> [] ->
  populated (u "content") (verified_outcome (first :: matched)) = true.
Proof.
  intros Hne.
  change (populated (u "content") (verified_outcome (first :: matched)))
    with (negb (Nat.eqb (length (join (nl ++ nl) (first :: matched))) 0)).
  apply negb_true_iff, Nat.eqb_neq. intros H.
  apply length_zero_iff_nil in H. revert H. now apply join_cons_nonempty.
Qed.

(** On a console that takes every message: whatever the two collaborators
    do, raising included, the tool returns an outcome document whose status
    is one of success, fallback_success and error; the content is populated
    exactly on success and fallback_success, the message exactly on error,
    so exactly one of the two is populated, and an error outcome has no
    content field. *)
Lemma quiet_tool_total_and_well_formed :
  exists doc status,
    tool = Ok (Json doc)
    /\ field (u "status") doc = Some (PStr status)
    /\ (status = u "success" \/ status = u "fallback_success"
        \/ status = u "error")
    /\ (populated (u "content") doc = true <->
          status = u "success" \/ status = u "fallback_success")
    /\ (populated (u "message") doc = true <-> status = u "error")
    /\ xorb (populated (u "content") doc) (populated (u "message") doc) = true
    /\ (status = u "error" -> field (u "content") doc = None)
    /\ (status <> u "error" -> field (u "message") doc = None).
Proof.
  destruct tool_cases
    as [(head & -> & Hh) | [-> | [-> | (matched & first & -> & Hne)]]].
  - exists (success_outcome head), (u "success").
    rewrite populated_content_success, Hh.
    repeat split; auto; try reflexivity; try str_neq.
  - exists refusal, (u "error").
    repeat split; auto; try reflexivity; try str_neq.
    + intros [H|H]; revert H; str_neq.
    + intros H. now contradiction H.
  - exists collection_failed, (u "error").
    repeat split; auto; try reflexivity; try str_neq.
    + intros [H|H]; revert H; str_neq.
    + intros H. now contradiction H.
  - exists (verified_outcome (first :: matched)), (u "fallback_success").
    rewrite (populated_content_verified matched Hne).
    repeat split; auto; try reflexivity; try str_neq.
Qed.

(** C9: the second [except Exception] clause of the scrape tool is dead
    code: whatever handler stands in its place, the tool returns the same;
    no outcome has the method tavily_search_fallback or a note field, and
    a fallback_success outcome has the method verified_search_cache. *)
Theorem second_fallback_clause_is_dead :
  (forall handler : exn -> exc tool_text,
      try_except (direct_scrape rt firecrawl_app url)
        [ (isinstance_Exception, fun _ => fallback);
          (isinstance_Exception, handler) ] = tool)
  /\ exists doc,
       tool = Ok (Json doc)
       /\ field (u "method") doc <> Some (PStr (u "tavily_search_fallback"))
       /\ field (u "note") doc = None
       /\ (field (u "status") doc = Some (PStr (u "fallback_success")) ->
           field (u "method") doc = Some (PStr (u "verified_search_cache"))).
Proof.
  split.
  - intros handler. rewrite tool_first_clause. unfold try_except.
    destruct (direct_scrape rt firecrawl_app url) as [t|e]; [reflexivity|].
    cbn [dispatch]. now rewrite isinstance_Exception_all.
  - destruct tool_cases
      as [(head & -> & Hh) | [-> | [-> | (matched & first & -> & Hne)]]].
    + exists (success_outcome head).
      repeat split; try reflexivity; str_neq.
    + exists refusal. repeat split; try reflexivity; str_neq.
    + exists collection_failed. repeat split; try reflexivity; str_neq.
    + exists (verified_outcome (first :: matched)).
      repeat split; try reflexivity; str_neq.
Qed.

Lemma url_overlap_str (candidate : str) :
  url_overlap (normalize_url rt url) (normalize_url_py rt (PStr candidate))
  = Ok (is_match rt candidate url).
Proof.
  unfold url_overlap, is_match. cbn [normalize_url_py str_in_py bind].
  destruct (contains (normalize_url rt url) (normalize_url rt candidate));
    reflexivity.
Qed.

Lemma collect_matches_unrelated (results : list pyval) (acc : list str) :
  Forall (unrelated rt url) results ->
  collect_matches rt (normalize_url rt url) results acc = Ok acc.
Proof.
  induction 1 as [|res rest (candidate & Hget & Hno) _ IH]; [reflexivity|].
  cbn [collect_matches]. rewrite Hget. cbn [bind].
  rewrite url_overlap_str, Hno. exact IH.
Qed.

(** X20: when the direct stage fails, so that the fallback search runs, and
    every returned result is a dict whose url is a string that does not
    match the target, the tool returns the refusal outcome: status error,
    the refusal message, no content.  The outcome is that one constant
    document whatever the results' titles and contents are, and however
    many results there are. *)
Theorem unverified_results_are_refused
    (e : exn) (response : pyval) (results : list pyval) :
  direct_scrape rt firecrawl_app url = Raise e ->
  search tavily_client url (u "advanced") = Ok response ->
  py_get response (u "results") (PList []) = Ok (PList results) ->
  Forall (unrelated rt url) results ->
  tool = Ok (Json refusal)
  /\ field (u "status") refusal = Some (PStr (u "error"))
  /\ field (u "message") refusal = Some (PStr refusal_message)
  /\ field (u "content") refusal = None.
Proof.
  intros Hd Hs Hr Hun. split; [|repeat split].
  rewrite (tool_of_raise Hd). unfold verified_fallback.
  rewrite Hs. cbn [bind]. rewrite Hr. cbn [bind py_iter].
  rewrite (collect_matches_unrelated [] Hun). reflexivity.
Qed.



End Retrieval.

(** ** The academic-paper search *)

Section ArxivSearch.

Variable rt : Runtime.
Variable arxiv : Arxiv.
Variable query : str.

Lemma paper_entries_serializable (papers : list ArxivResult) :
  json_serializable (PList (map paper_entry papers)) = true.
Proof.
  cbn [json_serializable].
  induction papers as [|p papers IH]; [reflexivity|].
  cbn [map forallb]. rewrite IH, andb_true_r.
  unfold paper_entry. cbn [json_serializable forallb snd].
  destruct (pdf_url p); reflexivity.
Qed.

(** C8, as amended: the tool asks the arXiv collaborator for the query
    with max_results 3, sorted by relevance.  When the collaborator
    answers, the tool returns one entry per paper, in the collaborator's
    order, so at most 3 when the collaborator keeps to max_results; an
    entry holds the title, the first 200 characters of the summary
    followed by "..." (203 characters at most, the dots being added to a
    short summary too), the publication date as year-month-day, and the PDF
    link.  When the collaborator raises, the tool returns the text
    "Error: " followed by the error's text. *)
Theorem arxiv_search_tool_entries :
  (forall papers,
      Search_results arxiv query 3 Relevance = Ok papers ->
      arxiv_search_tool rt arxiv query
        = Ok (Json (PList (map paper_entry papers)))
      /\ (length papers <= 3 -> length (map paper_entry papers) <= 3))
  /\ (forall p,
        field (u "title") (paper_entry p) = Some (PStr (title p))
        /\ field (u "summary") (paper_entry p)
           = Some (PStr (firstn 200 (summary p) ++ u "..."))
        /\ length (firstn 200 (summary p) ++ u "...") <= 203
        /\ field (u "published") (paper_entry p)
           = Some (PStr (strftime (published p) (u "%Y-%m-%d")))
        /\ field (u "pdf_url") (paper_entry p)
           = Some (match pdf_url p with Some l => PStr l | None => PNone end))
  /\ (forall e,
        Search_results arxiv query 3 Relevance = Raise e ->
        arxiv_search_tool rt arxiv query
          = Ok (Text (u "Error: " ++ exn_str rt e))).
Proof.
  split; [|split].
  - intros papers H. split.
    + unfold arxiv_search_tool. rewrite H. cbn [bind].
      unfold json_dumps. now rewrite paper_entries_serializable.
    + now rewrite length_map.
  - intros p. repeat split.
    rewrite length_app.
    pose proof (firstn_le_length 200 (summary p)) as Hle.
    change (length (u "...")) with 3. lia.
  - intros e H. unfold arxiv_search_tool. rewrite H.
    cbn [bind try_except dispatch].
    now rewrite isinstance_Exception_all.
Qed.

End ArxivSearch.

(** ** Worked examples *)

Import Examples.

(** A direct extraction of 40 characters and three unrelated search
    results: the tool refuses. *)
Lemma unverified_results_are_refused_example :
  Forall (unrelated example_runtime story) three_unrelated
  /\ firecrawl_scrape_tool example_runtime (firecrawl_markdown 40)
       tavily_unrelated story = Ok (Json refusal).
Proof.
  assert (H : Forall (unrelated example_runtime story) three_unrelated).
  { repeat constructor.
    - exists (u "https://other.com/x"). split; vm_compute; reflexivity.
    - exists (u "https://blog.example.org/post").
      split; vm_compute; reflexivity.
    - exists (u "https://news.example.com/story/7").
      split; vm_compute; reflexivity. }
  split; [exact H|].
  refine (proj1 (@unverified_results_are_refused example_runtime
            (firecrawl_markdown 40) tavily_unrelated story
            (Raised Exception (u "직접 접속 차단됨"))
            (PDict [ (u "results", PList three_unrelated) ])
            three_unrelated _ _ _ H)).
  - vm_compute. reflexivity.
  - reflexivity.
  - reflexivity.
Defined.




(** A host that holds both tokens away from its start. *)
Lemma normalize_url_strips_tokens_anywhere_example :
  exists host host',
    Removed (u "www.") (u "forum.www.example.com") host
    /\ Removed (u "m.") host host'
    /\ normalize_url example_runtime (u "https://forum.www.example.com/x")
       = host' ++ u "/x".
Proof.
  destruct (@normalize_url_strips_tokens_anywhere example_runtime
              (u "https://forum.www.example.com/x")) as [Hok _].
  apply (Hok {| scheme := u "https"; netloc := u "forum.www.example.com";
                path := u "/x"; params := []; query := [];
                fragment := [] |}).
  vm_compute. reflexivity.
Defined.



(** The summary of an entry is longer than 200 characters and is not the
    summary cut at 200. *)
Lemma arxiv_summary_is_not_cut_at_200 :
  exists doc s,
    arxiv_search_tool example_runtime arxiv_one (u "llm")
      = Ok (Json (PList [doc]))
    /\ field (u "summary") doc = Some (PStr s)
    /\ length s = 203
    /\ s <> firstn 200 (summary long_paper).
Proof.
  exists (paper_entry long_paper),
         (firstn 200 (summary long_paper) ++ u "...").
  split; [vm_compute; reflexivity|].
  split; [reflexivity|]. split; [vm_compute; reflexivity|].
  intros H. apply (f_equal (@length char)) in H.
  vm_compute in H. discriminate.
Qed.

Lemma arxiv_search_tool_entries_example :
  arxiv_search_tool example_runtime arxiv_one (u "llm")
    = Ok (Json (PList (map paper_entry [long_paper])))
  /\ length (map paper_entry [long_paper]) <= 3.
Proof.
  destruct (@arxiv_search_tool_entries example_runtime arxiv_one (u "llm"))
    as [Hok _].
  destruct (Hok [long_paper] eq_refl) as [Htool Hlen].
  split; [exact Htool|]. apply Hlen. simpl. lia.
Defined.

(** The direct extraction raises and the search returns the page, under a
    URL with a query string, and an unrelated page: only the entry of the
    page is in the outcome. *)
Example verified_fallback_keeps_matching_entry :
  firecrawl_scrape_tool example_runtime firecrawl_blocked tavily_mixed story
  = Ok (Json (verified_outcome
                [u "- 제목: Story 42" ++ nl ++ u "- 내용: The body"])).
Proof. vm_compute. reflexivity. Qed.

(** Both collaborators fail. *)
Example both_collaborators_fail :
  firecrawl_scrape_tool example_runtime firecrawl_blocked tavily_down story
  = Ok (Json collection_failed).
Proof. vm_compute. reflexivity. Qed.

(** A result without a URL normalizes to the empty string, which occurs in
    every string: it matches. *)
Example empty_url_matches : is_match example_runtime (u "") story = true.
Proof. vm_compute. reflexivity. Qed.

Example urlparse_parts_example :
  urlparse example_runtime (u "HTTP://www.example.com:80/a/b;c/d;e?q=1#top")
  = Ok {| scheme := u "http"; netloc := u "www.example.com:80";
          path := u "/a/b;c/d"; params := u "e"; query := u "q=1";
          fragment := u "top" |}.
Proof. vm_compute. reflexivity. Qed.

(** One pass from the left: a token that the removal itself brings about
    is not taken out. *)
Example replace_is_one_pass :
  str_replace (u "m.") [] (u "mm..") = u "m."
  /\ normalize_url example_runtime (u "https://forum.example.com/x")
     = u "foruexample.com/x".
Proof. split; vm_compute; reflexivity. Qed.

(** * Further properties of the tools *)

(** ** The verifier and the fallback loop *)

Section FallbackLoop.

Variable rt : Runtime.
Variable url : str.

Lemma contains_refl (s : str) : contains s s = true.
Proof.
  apply contains_iff. exists [], []. now rewrite app_nil_r.
Qed.

Lemma contains_nil (s : str) : contains [] s = true.
Proof. apply contains_iff. now exists [], s. Qed.

Lemma normalize_url_empty : normalize_url rt (u "") = u "".
Proof. vm_compute. reflexivity. Qed.

Lemma is_match_empty (target : str) : is_match rt (u "") target = true.
Proof.
  unfold is_match. rewrite normalize_url_empty.
  change (u "") with (@nil char). rewrite contains_nil. apply orb_true_r.
Qed.

(** X1: every URL matches itself, and the empty URL matches every target:
    its normalized form is the empty string, which occurs in any string. *)
Theorem is_match_reflexive_and_empty :
  (forall a, is_match rt a a = true)
  /\ (forall target, is_match rt (u "") target = true).
Proof.
  split.
  - intros a. unfold is_match. now rewrite contains_refl.
  - exact is_match_empty.
Qed.



End FallbackLoop.

Section FallbackStage.

Variable rt : Runtime.
Variable firecrawl_app : FirecrawlApp.
Variable tavily_client : TavilyClient.
Variable url : str.

Local Abbreviation tool :=
  (firecrawl_scrape_tool rt firecrawl_app tavily_client url).
Local Abbreviation fallback := (verified_fallback rt tavily_client url).









Lemma direct_scrape_bounds (t : tool_text) :
  direct_scrape rt firecrawl_app url = Ok t ->
  exists head n,
    t = Json (success_outcome head)
    /\ py_len head = Ok n /\ 100 <= n <= 4000.
Proof.
  unfold direct_scrape.
  destruct (call_scrape firecrawl_app url) as [r|]; cbn [bind];
    [|discriminate].
  destruct (extract_content rt r) as [content|]; cbn [bind]; [|discriminate].
  destruct (too_short content) as [[|]|] eqn:Hshort; cbn [bind];
    try discriminate.
  destruct (py_slice_to 4000 content) as [head|] eqn:Hs; cbn [bind];
    [|discriminate].
  unfold json_dumps. destruct (json_serializable _); [|discriminate].
  intros H. assert (t = Json (success_outcome head)) as ->
    by (unfold success_outcome; congruence).
  apply too_short_false in Hshort as (_ & n & Hn & Hle).
  exists head, (Nat.min 4000 n). split; [reflexivity|].
  split; [|lia].
  destruct content as [| |s|l|d|]; cbn [py_len py_slice_to] in Hn, Hs;
    try discriminate.
  - assert (head = PStr (firstn 4000 s)) as -> by congruence.
    assert (n = length s) as -> by congruence.
    cbn [py_len]. now rewrite length_firstn.
  - assert (head = PList (firstn 4000 l)) as -> by congruence.
    assert (n = length l) as -> by congruence.
    cbn [py_len]. now rewrite length_firstn.
Qed.

(** X6: the content of every success outcome has between 100 and 4000
    characters (or items). *)
Theorem success_content_is_bounded (doc : pyval) :
  tool = Ok (Json doc) ->
  field (u "status") doc = Some (PStr (u "success")) ->
  exists content n,
    field (u "content") doc = Some content
    /\ py_len content = Ok n
    /\ 100 <= n <= 4000.
Proof.
  rewrite tool_first_clause.
  destruct (direct_scrape rt firecrawl_app url) as [t|e] eqn:Hd.
  - apply direct_scrape_bounds in Hd as (head & n & -> & Hn & Hb).
    intros H _. assert (doc = success_outcome head) as -> by congruence.
    exists head, n. split; [reflexivity|]. now split.
  - intros H.
    destruct (verified_fallback_cases rt tavily_client url)
      as [H' | [H' | (matched & first & H' & _)]];
      rewrite H' in H;
      [ assert (doc = refusal) as -> by congruence
      | assert (doc = collection_failed) as -> by congruence
      | assert (doc = verified_outcome (first :: matched)) as ->
          by congruence ];
      str_neq.
Qed.


End FallbackStage.

(** ** The direct stage *)

Section DirectStage.

Variable rt : Runtime.
Variable firecrawl_app : FirecrawlApp.
Variable tavily_client : TavilyClient.
Variable url : str.

Local Abbreviation tool :=
  (firecrawl_scrape_tool rt firecrawl_app tavily_client url).
Local Abbreviation fallback := (verified_fallback rt tavily_client url).




End DirectStage.

(** ** Schemes and host prefixes under normalization *)

Section SchemeAndPrefix.

Variable rt : Runtime.

Ltac urlsplit_known_scheme prefix scheme_name r :=
  unfold urlsplit; cbv zeta;
  change (lstrip WHATWG_C0_CONTROL_OR_SPACE (prefix ++ r)) with (prefix ++ r);
  change (fold_left (fun s b => str_replace b [] s)
            UNSAFE_URL_BYTES_TO_REMOVE (prefix ++ r))
    with (prefix ++ strip_unsafe r);
  change (split_scheme (prefix ++ strip_unsafe r))
    with (scheme_name, u "//" ++ strip_unsafe r);
  cbv beta iota;
  change (startswith (u "//") (u "//" ++ strip_unsafe r)) with true;
  cbv beta iota;
  change (splitnetloc (u "//" ++ strip_unsafe r))
    with (span_until (u "/?#") (strip_unsafe r));
  unfold urlsplit_authority;
  destruct (span_until (u "/?#") (strip_unsafe r)) as [n rest];
  destruct (check_brackets rt n); reflexivity.

Lemma urlsplit_http (r : str) :
  urlsplit rt (u "http://" ++ r)
  = urlsplit_authority rt (u "http") (strip_unsafe r).
Proof. urlsplit_known_scheme (u "http://") (u "http") r. Qed.

Lemma urlsplit_https (r : str) :
  urlsplit rt (u "https://" ++ r)
  = urlsplit_authority rt (u "https") (strip_unsafe r).
Proof. urlsplit_known_scheme (u "https://") (u "https") r. Qed.

Lemma urlsplit_authority_inv (sch rest : str) (r : ParseResult) :
  urlsplit_authority rt sch rest = Ok r ->
  scheme r = sch
  /\ forall sch',
       urlsplit_authority rt sch' rest
       = Ok {| scheme := sch'; netloc := netloc r; path := path r;
               params := params r; query := query r;
               fragment := fragment r |}.
Proof.
  unfold urlsplit_authority.
  destruct (span_until (u "/?#") rest) as [n rest'].
  destruct (check_brackets rt n); cbn [bind]; [|discriminate].
  destruct (split_off (chr "#") rest') as [u3 f].
  destruct (split_off (chr "?") u3) as [u4 q].
  destruct (checknetloc rt n); cbn [bind]; [|discriminate].
  intros H. assert (E : r = {| scheme := sch; netloc := n; path := u4;
                               params := []; query := q; fragment := f |})
    by congruence.
  subst r. split; reflexivity.
Qed.

(** [urlparse] keeps the netloc of [urlsplit], and its path is a function
    of the path of [urlsplit] and of whether the scheme takes
    parameters. *)
Lemma urlparse_same_netloc_path (url1 url2 : str) (r1 r2 : ParseResult) :
  urlsplit rt url1 = Ok r1 ->
  urlsplit rt url2 = Ok r2 ->
  netloc r1 = netloc r2 ->
  path r1 = path r2 ->
  existsb (str_eqb (scheme r1)) uses_params
  = existsb (str_eqb (scheme r2)) uses_params ->
  exists p1 p2,
    urlparse rt url1 = Ok p1 /\ urlparse rt url2 = Ok p2
    /\ netloc p1 = netloc p2 /\ path p1 = path p2.
Proof.
  intros H1 H2 Hn Hp Hs. unfold urlparse. rewrite H1, H2. cbn [bind].
  rewrite <- Hs, <- Hp.
  destruct (_ && _).
  - destruct (splitparams (path r1)) as [url' params'].
    eexists. eexists. repeat split; [exact Hn].
  - exists r1, r2. repeat split; assumption.
Qed.

Lemma normalize_url_same_parts (url1 url2 : str) (p1 p2 : ParseResult) :
  urlparse rt url1 = Ok p1 -> urlparse rt url2 = Ok p2 ->
  str_replace (u "m.") [] (str_replace (u "www.") [] (netloc p1))
  = str_replace (u "m.") [] (str_replace (u "www.") [] (netloc p2)) ->
  path p1 = path p2 ->
  normalize_url rt url1 = normalize_url rt url2
  /\ is_match rt url1 url2 = true.
Proof.
  intros H1 H2 Hn Hp.
  assert (E : normalize_url rt url1 = normalize_url rt url2).
  { rewrite (normalize_url_parsed _ _ H1), (normalize_url_parsed _ _ H2).
    now rewrite Hn, Hp. }
  split; [exact E|]. unfold is_match. rewrite E, contains_refl. reflexivity.
Qed.

(** X9: the scheme is not part of the normalized form: when the http URL
    parses, the https URL of the same address has the same normalized form,
    and the two match. *)
Theorem http_and_https_normalize_alike (r : str) (parsed : ParseResult) :
  urlparse rt (u "http://" ++ r) = Ok parsed ->
  normalize_url rt (u "https://" ++ r) = normalize_url rt (u "http://" ++ r)
  /\ is_match rt (u "https://" ++ r) (u "http://" ++ r) = true.
Proof.
  intros H.
  destruct (urlsplit rt (u "http://" ++ r)) as [r1|e] eqn:H1;
    [|unfold urlparse in H; rewrite H1 in H; discriminate].
  pose proof H1 as H1'. rewrite urlsplit_http in H1'.
  apply urlsplit_authority_inv in H1' as [Hsch Hany].
  pose proof (Hany (u "https")) as H2. rewrite <- urlsplit_https in H2.
  destruct (urlparse_same_netloc_path _ _ H2 H1) as (p2 & p1 & Hp2 & Hp1 & Hn & Hp);
    try reflexivity.
  { cbn [scheme]. rewrite Hsch. reflexivity. }
  apply (normalize_url_same_parts _ _ Hp2 Hp1); [now rewrite Hn|exact Hp].
Qed.

Lemma span_until_prefix (stop hp rest : str) :
  Forall (fun c => char_in c stop = false) hp ->
  span_until stop (hp ++ rest)
  = (hp ++ fst (span_until stop rest), snd (span_until stop rest)).
Proof.
  induction 1 as [|c hp Hc _ IH]; cbn [app span_until].
  - now destruct (span_until stop rest).
  - rewrite Hc, IH. reflexivity.
Qed.

(** Neither host prefix holds a delimiter or an unsafe character, and the
    two [replace] calls take them out. *)
Lemma host_prefix_plain (hp : str) :
  hp = u "www." \/ hp = u "m." ->
  Forall (fun c => char_in c (u "/?#") = false) hp
  /\ (forall rest, strip_unsafe (hp ++ rest) = hp ++ strip_unsafe rest)
  /\ (forall n,
        str_replace (u "m.") [] (str_replace (u "www.") [] (hp ++ n))
        = str_replace (u "m.") [] (str_replace (u "www.") [] n)).
Proof.
  intros [-> | ->]; (split; [repeat constructor|split; reflexivity]).
Qed.

Lemma urlsplit_authority_prefix (sch hp rest : str) (r1 r2 : ParseResult) :
  Forall (fun c => char_in c (u "/?#") = false) hp ->
  urlsplit_authority rt sch (hp ++ rest) = Ok r1 ->
  urlsplit_authority rt sch rest = Ok r2 ->
  netloc r1 = hp ++ netloc r2 /\ path r1 = path r2 /\ scheme r1 = scheme r2.
Proof.
  intros Hhp. unfold urlsplit_authority.
  rewrite (@span_until_prefix (u "/?#") hp rest Hhp).
  destruct (span_until (u "/?#") rest) as [n rest']. cbn [fst snd].
  destruct (check_brackets rt (hp ++ n)); cbn [bind]; [|discriminate].
  destruct (check_brackets rt n); cbn [bind]; [|discriminate].
  destruct (split_off (chr "#") rest') as [u3 f].
  destruct (split_off (chr "?") u3) as [u4 q].
  destruct (checknetloc rt (hp ++ n)); cbn [bind]; [|discriminate].
  destruct (checknetloc rt n); cbn [bind]; [|discriminate].
  intros H1 H2.
  assert (E1 : r1 = {| scheme := sch; netloc := hp ++ n; path := u4;
                       params := []; query := q; fragment := f |})
    by congruence.
  assert (E2 : r2 = {| scheme := sch; netloc := n; path := u4;
                       params := []; query := q; fragment := f |})
    by congruence.
  subst r1 r2. repeat split.
Qed.

(** X10: the host prefixes "www." and "m." are not part of the normalized
    form: when an http or https URL parses with and without such a prefix
    in front of its host, the two URLs have the same normalized form and
    match. *)
Theorem host_prefix_normalizes_away
    (sp hp r : str) (with_prefix without : ParseResult) :
  sp = u "http://" \/ sp = u "https://" ->
  hp = u "www." \/ hp = u "m." ->
  urlparse rt (sp ++ hp ++ r) = Ok with_prefix ->
  urlparse rt (sp ++ r) = Ok without ->
  normalize_url rt (sp ++ hp ++ r) = normalize_url rt (sp ++ r)
  /\ is_match rt (sp ++ hp ++ r) (sp ++ r) = true.
Proof.
  intros Hsp Hhp H1 H2.
  destruct (host_prefix_plain Hhp) as (Hplain & Hstrip & Hrep).
  destruct (urlsplit rt (sp ++ hp ++ r)) as [r1|e1] eqn:Hs1;
    [|unfold urlparse in H1; rewrite Hs1 in H1; discriminate].
  destruct (urlsplit rt (sp ++ r)) as [r2|e2] eqn:Hs2;
    [|unfold urlparse in H2; rewrite Hs2 in H2; discriminate].
  assert (Hparts : netloc r1 = hp ++ netloc r2 /\ path r1 = path r2
                   /\ scheme r1 = scheme r2).
  { destruct Hsp as [-> | ->].
    - rewrite urlsplit_http in Hs1, Hs2. rewrite Hstrip in Hs1.
      exact (urlsplit_authority_prefix _ _ Hplain Hs1 Hs2).
    - rewrite urlsplit_https in Hs1, Hs2. rewrite Hstrip in Hs1.
      exact (urlsplit_authority_prefix _ _ Hplain Hs1 Hs2). }
  destruct Hparts as (Hn & Hp & Hsch).
  assert (Hn1 : netloc with_prefix = netloc r1 /\ path with_prefix
                  = (if existsb (str_eqb (scheme r1)) uses_params
                        && char_in (chr ";") (path r1)
                     then fst (splitparams (path r1)) else path r1)).
  { unfold urlparse in H1. rewrite Hs1 in H1. cbn [bind] in H1.
    destruct (_ && _).
    - destruct (splitparams (path r1)) as [a b].
      assert (E : with_prefix = {| scheme := scheme r1; netloc := netloc r1;
                                   path := a; params := b; query := query r1;
                                   fragment := fragment r1 |}) by congruence.
      subst with_prefix. split; reflexivity.
    - assert (with_prefix = r1) as -> by congruence. split; reflexivity. }
  assert (Hn2 : netloc without = netloc r2 /\ path without
                  = (if existsb (str_eqb (scheme r2)) uses_params
                        && char_in (chr ";") (path r2)
                     then fst (splitparams (path r2)) else path r2)).
  { unfold urlparse in H2. rewrite Hs2 in H2. cbn [bind] in H2.
    destruct (_ && _).
    - destruct (splitparams (path r2)) as [a b].
      assert (E : without = {| scheme := scheme r2; netloc := netloc r2;
                               path := a; params := b; query := query r2;
                               fragment := fragment r2 |}) by congruence.
      subst without. split; reflexivity.
    - assert (without = r2) as -> by congruence. split; reflexivity. }
  destruct Hn1 as [Hn1 Hp1]. destruct Hn2 as [Hn2 Hp2].
  apply (normalize_url_same_parts _ _ H1 H2).
  - rewrite Hn1, Hn2, Hn. apply Hrep.
  - rewrite Hp1, Hp2, Hp, Hsch. reflexivity.
Qed.

End SchemeAndPrefix.

(** ** The web search tool *)

Section WebSearch.

Variable rt : Runtime.
Variable tavily_client : TavilyClient.
Variable query : str.

Lemma tavily_search_tool_cases :
  (exists e,
      tavily_search_tool rt tavily_client query
      = Ok (Text (u "Error: " ++ exn_str rt e)))
  \/ (exists response results top,
        search tavily_client query (u "advanced") = Ok response
        /\ py_get response (u "results") (PList []) = Ok results
        /\ py_slice_to 3 results = Ok top
        /\ json_serializable top = true
        /\ tavily_search_tool rt tavily_client query = Ok (Json top)).
Proof.
  unfold tavily_search_tool, try_except.
  assert (Herr : forall e : exn,
    exists e',
      dispatch [(isinstance_Exception,
                 fun e0 : exn => Ok (Text (u "Error: " ++ exn_str rt e0)))] e
      = Ok (Text (u "Error: " ++ exn_str rt e'))).
  { intros e. exists e. cbn [dispatch]. now rewrite isinstance_Exception_all. }
  destruct (search tavily_client query (u "advanced")) as [response|e]
    eqn:Hq; cbn [bind]; [|left; apply Herr].
  destruct (py_get response (u "results") (PList [])) as [results|e]
    eqn:Hr; cbn [bind]; [|left; apply Herr].
  destruct (py_slice_to 3 results) as [top|e] eqn:Hs; cbn [bind];
    [|left; apply Herr].
  unfold json_dumps. destruct (json_serializable top) eqn:Hj;
    [|left; apply Herr].
  right. exists response, results, top. repeat split; try assumption.
Qed.

(** X11: the web search tool raises nothing, whatever the collaborator
    does: it returns either the text "Error: " followed by the text of an
    error, or a JSON document of at most 3 items. *)
Theorem tavily_search_tool_total_and_bounded :
  exists t,
    tavily_search_tool rt tavily_client query = Ok t
    /\ match t with
       | Text s => exists e, s = u "Error: " ++ exn_str rt e
       | Json doc => exists n, py_len doc = Ok n /\ n <= 3
       end.
Proof.
  destruct tavily_search_tool_cases
    as [[e H] | (response & results & top & _ & _ & Hs & _ & H)].
  - eexists. split; [exact H|]. now exists e.
  - exists (Json top). split; [exact H|].
    destruct results as [| |s|l|d|]; cbn [py_slice_to] in Hs;
      try discriminate.
    + assert (top = PStr (firstn 3 s)) as -> by congruence.
      exists (length (firstn 3 s)). split; [reflexivity|].
      apply firstn_le_length.
    + assert (top = PList (firstn 3 l)) as -> by congruence.
      exists (length (firstn 3 l)). split; [reflexivity|].
      apply firstn_le_length.
Qed.

(** X12: when the collaborator answers with a dict, the tool returns the
    first three results, in their order, provided JSON can encode these
    three (later results are not looked at), and the empty list when the
    dict has no results. *)
Theorem tavily_search_tool_first_three (d : list (str * pyval)) :
  search tavily_client query (u "advanced") = Ok (PDict d) ->
  (lookup (u "results") d = None ->
     tavily_search_tool rt tavily_client query = Ok (Json (PList [])))
  /\ (forall results,
        lookup (u "results") d = Some (PList results) ->
        json_serializable (PList (firstn 3 results)) = true ->
        tavily_search_tool rt tavily_client query
        = Ok (Json (PList (firstn 3 results)))).
Proof.
  intros Hs. split.
  - intros Hno. unfold tavily_search_tool. rewrite Hs.
    cbn [bind py_get]. now rewrite Hno.
  - intros results Hr Hj. unfold tavily_search_tool. rewrite Hs.
    cbn [bind py_get]. rewrite Hr. cbn [bind py_slice_to].
    unfold json_dumps. now rewrite Hj.
Qed.

End WebSearch.

(** ** The scrape tool on a console *)

Section OnConsole.

Variable rt : Runtime.
Variable console : Console.
Variable firecrawl_app : FirecrawlApp.
Variable tavily_client : TavilyClient.
Variable url : str.

Local Abbreviation tool_on :=
  (firecrawl_scrape_tool_on rt console firecrawl_app tavily_client url).
Local Abbreviation handler :=
  (_ <- print console fallback_notice;;
   verified_fallback rt tavily_client url).

(** Only the first clause runs, after either a failed [print] of line 85
    or a failed direct stage. *)
Lemma tool_on_first_clause :
  tool_on
  = match print console (scrape_notice url) with
    | Ok _ =>
        match direct_scrape rt firecrawl_app url with
        | Ok t => Ok t
        | Raise _ => handler
        end
    | Raise _ => handler
    end.
Proof.
  unfold firecrawl_scrape_tool_on, try_except.
  destruct (print console (scrape_notice url)) as [[]|e]; cbn [bind].
  - destruct (direct_scrape rt firecrawl_app url) as [t|e]; [reflexivity|].
    cbn [dispatch]. now rewrite isinstance_Exception_all.
  - cbn [dispatch]. now rewrite isinstance_Exception_all.
Qed.

(** When both messages are written the tool is the tool without its
    [print] calls. *)
Lemma tool_on_quiet :
  print console (scrape_notice url) = Ok tt ->
  print console fallback_notice = Ok tt ->
  tool_on = firecrawl_scrape_tool rt firecrawl_app tavily_client url.
Proof.
  intros H1 H2. rewrite tool_on_first_clause, tool_first_clause, H1, H2.
  reflexivity.
Qed.

Lemma listed_outcomes_well_formed (doc : pyval) :
  (exists head, doc = success_outcome head /\ truthy head = true)
  \/ doc = refusal
  \/ doc = collection_failed
  \/ (exists matched first,
        doc = verified_outcome (first :: matched) /\ first <> []) ->
  well_formed_outcome doc.
Proof.
  intros [(head & -> & Hh) | [-> | [-> | (matched & first & -> & Hne)]]].
  - exists (u "success"). rewrite populated_content_success, Hh.
    repeat split; auto; try reflexivity; try str_neq.
  - exists (u "error").
    repeat split; auto; try reflexivity; try str_neq.
    + intros [H|H]; revert H; str_neq.
    + intros H. now contradiction H.
  - exists (u "error").
    repeat split; auto; try reflexivity; try str_neq.
    + intros [H|H]; revert H; str_neq.
    + intros H. now contradiction H.
  - exists (u "fallback_success").
    rewrite (populated_content_verified matched Hne).
    repeat split; auto; try reflexivity; try str_neq.
Qed.

Lemma fallback_well_formed :
  exists doc,
    verified_fallback rt tavily_client url = Ok (Json doc)
    /\ well_formed_outcome doc.
Proof.
  destruct (verified_fallback_cases rt tavily_client url)
    as [H | [H | (matched & first & H & Hne)]];
    eexists; (split; [exact H|]); apply listed_outcomes_well_formed.
  - right. now left.
  - right. right. now left.
  - right. right. right. now exists matched, first.
Qed.

Lemma direct_scrape_well_formed (t : tool_text) :
  direct_scrape rt firecrawl_app url = Ok t ->
  exists doc, t = Json doc /\ well_formed_outcome doc.
Proof.
  intros H. apply direct_scrape_inv in H as (head & -> & Hh).
  eexists. split; [reflexivity|]. apply listed_outcomes_well_formed.
  left. now exists head.
Qed.

(** The tool returns when the message of line 114 is written. *)
Lemma tool_on_returns :
  print console fallback_notice = Ok tt ->
  exists doc, tool_on = Ok (Json doc) /\ well_formed_outcome doc.
Proof.
  intros Hp. rewrite tool_on_first_clause, Hp. cbn [bind].
  destruct (print console (scrape_notice url)) as [[]|e];
    [|apply fallback_well_formed].
  destruct (direct_scrape rt firecrawl_app url) as [t|e] eqn:Hd;
    [|apply fallback_well_formed].
  destruct (direct_scrape_well_formed Hd) as (doc & -> & Hw).
  now exists doc.
Qed.

(** X19: with its [print] calls, the tool returns a well-formed outcome
    whenever the message of line 114 can be written to the console,
    whatever the collaborators do and whether or not the message of line 85
    can be written; every text it returns is a well-formed outcome; and the
    only exception that leaves it is the one [print] raises on the message
    of line 114. *)
Theorem tool_returns_unless_the_notice_fails :
  (print console fallback_notice = Ok tt ->
     exists doc, tool_on = Ok (Json doc) /\ well_formed_outcome doc)
  /\ (forall t, tool_on = Ok t ->
                exists doc, t = Json doc /\ well_formed_outcome doc)
  /\ (forall e, tool_on = Raise e ->
                print console fallback_notice = Raise e).
Proof.
  split; [exact tool_on_returns|].
  rewrite tool_on_first_clause.
  assert (Hh : (forall t, handler = Ok t ->
                  exists doc, t = Json doc /\ well_formed_outcome doc)
               /\ (forall e, handler = Raise e ->
                     print console fallback_notice = Raise e)).
  { destruct (print console fallback_notice) as [[]|e']; cbn [bind].
    - destruct fallback_well_formed as (doc & -> & Hw). split.
      + intros t H. exists doc. split; [congruence|exact Hw].
      + discriminate.
    - split; [discriminate|]. intros e H. congruence. }
  destruct (print console (scrape_notice url)) as [[]|e0]; [|exact Hh].
  destruct (direct_scrape rt firecrawl_app url) as [t0|e0] eqn:Hd;
    [|exact Hh].
  split.
  - intros t H. assert (t = t0) as -> by congruence.
    exact (direct_scrape_well_formed Hd).
  - discriminate.
Qed.

(** A [print] that fails on line 85 is handled as a failed scrape. *)
Lemma failed_scrape_notice_falls_back (e : exn) :
  print console (scrape_notice url) = Raise e ->
  tool_on = handler.
Proof. intros H. now rewrite tool_on_first_clause, H. Qed.

End OnConsole.

(** ** The tool calls of a turn *)

Section ToolCalls.

Variable rt : Runtime.
Variable host : Host.
Variable console : Console.
Variable firecrawl_app : FirecrawlApp.
Variable tavily_client : TavilyClient.
Variable arxiv : Arxiv.

Local Abbreviation loop :=
  (run_tool_calls rt host console firecrawl_app tavily_client arxiv).

Lemma run_tool_calls_appends (tool_calls : list ToolCall) :
  forall messages used,
    exists added,
      fst (loop tool_calls messages used) = messages ++ added.
Proof.
  induction tool_calls as [|tc rest IH]; intros messages used;
    cbn [run_tool_calls].
  - exists []. now rewrite app_nil_r.
  - assert (Hstop : forall e : exn,
      exists added,
        fst (messages, @Raise (list str) e) = messages ++ added)
      by (intros e; exists []; now rewrite app_nil_r).
    destruct (assoc (function_name tc) available_functions) as [fn|];
      [|apply Hstop].
    destruct (json_loads host (function_arguments tc)) as [args|e];
      [|apply Hstop].
    destruct (if str_eqb (function_name tc) (u "get_current_time")
              then call_no_arguments host fn (call_id tc)
              else call_keywords rt host console firecrawl_app tavily_client arxiv
                     fn (call_id tc) args) as [response|e];
      [|apply Hstop].
    destruct (IH (messages ++ [ToolEntry (call_id tc) (function_name tc)
                                 response])
                 (note_tool (friendly_name (function_name tc)) used))
      as [added Ha].
    rewrite Ha, <- app_assoc. eexists. reflexivity.
Qed.

Lemma In_note_tool (x friendly : str) (used : list str) :
  In x (note_tool friendly used) <-> x = friendly \/ In x used.
Proof.
  unfold note_tool. destruct (existsb (str_eqb friendly) used) eqn:E.
  - split; [tauto|]. intros [-> | H]; [|exact H].
    apply existsb_exists in E as (y & Hy & Heq).
    apply str_eqb_eq in Heq. now subst.
  - rewrite in_app_iff. cbn [In]. intuition congruence.
Qed.

Lemma NoDup_note_tool (friendly : str) (used : list str) :
  NoDup used -> NoDup (note_tool friendly used).
Proof.
  intros H. unfold note_tool.
  destruct (existsb (str_eqb friendly) used) eqn:E; [exact H|].
  apply NoDup_app; [exact H|repeat constructor; intros []|].
  intros x Hx [E' | []]. subst x.
  assert (existsb (str_eqb friendly) used = true); [|congruence].
  apply existsb_exists. exists friendly.
  split; [exact Hx|]. now apply str_eqb_eq.
Qed.

Lemma run_tool_calls_used (tool_calls : list ToolCall) :
  forall messages used messages' used',
    loop tool_calls messages used = (messages', Ok used') ->
    (NoDup used -> NoDup used')
    /\ forall x,
         In x used' <->
         In x used
         \/ exists tc, In tc tool_calls
                       /\ x = friendly_name (function_name tc).
Proof.
  induction tool_calls as [|tc rest IH];
    intros messages used messages' used' H.
  - cbn [run_tool_calls] in H. assert (used' = used) as -> by congruence.
    split; [tauto|]. intros x. split; [tauto|].
    intros [Hx | (tc & [] & _)]. exact Hx.
  - cbn [run_tool_calls] in H.
    destruct (assoc (function_name tc) available_functions) as [fn|];
      [|discriminate].
    destruct (json_loads host (function_arguments tc)) as [args|e];
      [|discriminate].
    destruct (if str_eqb (function_name tc) (u "get_current_time")
              then call_no_arguments host fn (call_id tc)
              else call_keywords rt host console firecrawl_app tavily_client arxiv
                     fn (call_id tc) args) as [response|e];
      [|discriminate].
    apply IH in H as [Hnd Hin]. split.
    + intros Hu. apply Hnd. now apply NoDup_note_tool.
    + intros x. rewrite Hin, In_note_tool. cbn [In]. split.
      * intros [[-> | Hx] | (tc' & Htc & ->)].
        -- right. exists tc. split; [now left|reflexivity].
        -- now left.
        -- right. exists tc'. split; [now right|reflexivity].
      * intros [Hx | (tc' & [<- | Htc] & ->)].
        -- left. now right.
        -- left. now left.
        -- right. now exists tc'.
Qed.

Lemma run_tool_calls_app (pre post : list ToolCall) :
  forall messages used messages1 used1,
    loop pre messages used = (messages1, Ok used1) ->
    loop (pre ++ post) messages used = loop post messages1 used1.
Proof.
  induction pre as [|tc pre IH]; intros messages used messages1 used1 H.
  - cbn [run_tool_calls] in H. cbn [app].
    assert (messages1 = messages /\ used1 = used) as [-> ->]
      by (split; congruence).
    reflexivity.
  - cbn [app run_tool_calls] in *.
    destruct (assoc (function_name tc) available_functions) as [fn|];
      [|discriminate].
    destruct (json_loads host (function_arguments tc)) as [args|e];
      [|discriminate].
    destruct (if str_eqb (function_name tc) (u "get_current_time")
              then call_no_arguments host fn (call_id tc)
              else call_keywords rt host console firecrawl_app tavily_client arxiv
                     fn (call_id tc) args) as [response|e];
      [|discriminate].
    now apply IH.
Qed.

Lemma run_tool_calls_step (tc : ToolCall) (rest : list ToolCall)
    (messages : list message) (used : list str) :
  loop (tc :: rest) messages used
  = match serve_call rt host console firecrawl_app tavily_client arxiv tc with
    | Ok response =>
        loop rest
          (messages ++ [ToolEntry (call_id tc) (function_name tc) response])
          (note_tool (friendly_name (function_name tc)) used)
    | Raise e => (messages, Raise e)
    end.
Proof.
  cbn [run_tool_calls]. unfold serve_call.
  destruct (assoc (function_name tc) available_functions) as [fn|];
    [|reflexivity].
  destruct (json_loads host (function_arguments tc)) as [args|e];
    reflexivity.
Qed.

(** X13: the loop appends one tool message for each call it serves, in the
    order of the calls, each with the id and the name of its call and with
    the response of that call.  When every call is served, the transcript
    ends with the messages of all the calls; when a call raises after
    others were served, the loop raises the error of that call, the
    messages of the calls before it stay in the transcript, and the calls
    after it are not made. *)
Theorem tool_messages_follow_the_calls :
  (forall tool_calls responses messages used,
      Forall2
        (fun tc response =>
           serve_call rt host console firecrawl_app tavily_client arxiv tc
           = Ok response)
        tool_calls responses ->
      exists used',
        loop tool_calls messages used
        = (messages ++ map tool_entry (combine tool_calls responses),
           Ok used'))
  /\ (forall served responses failing rest e messages used,
        Forall2
          (fun tc response =>
             serve_call rt host console firecrawl_app tavily_client arxiv tc
             = Ok response)
          served responses ->
        serve_call rt host console firecrawl_app tavily_client arxiv failing
        = Raise e ->
        loop (served ++ failing :: rest) messages used
        = (messages ++ map tool_entry (combine served responses), Raise e)).
Proof.
  split.
  - intros tool_calls responses messages used H. revert messages used.
    induction H as [|tc response tool_calls responses Htc _ IH];
      intros messages used.
    + exists used. cbn [combine map run_tool_calls]. now rewrite app_nil_r.
    + rewrite run_tool_calls_step, Htc.
      destruct (IH (messages ++ [ToolEntry (call_id tc) (function_name tc)
                                   response])
                   (note_tool (friendly_name (function_name tc)) used))
        as [used' Hloop].
      exists used'. rewrite Hloop, <- app_assoc. reflexivity.
  - intros served responses failing rest e messages used H Hfail.
    revert messages used.
    induction H as [|tc response served responses Htc _ IH];
      intros messages used.
    + cbn [app combine map]. rewrite run_tool_calls_step, Hfail.
      now rewrite app_nil_r.
    + cbn [app]. rewrite run_tool_calls_step, Htc, IH, <- app_assoc.
      reflexivity.
Qed.

(** X14: when the loop ends without an error, the list of the tools used
    names every tool that was called, by its display name, names nothing
    else, and names no tool twice. *)
Theorem used_tools_are_listed_once
    (tool_calls : list ToolCall) (messages messages' : list message)
    (used' : list str) :
  loop tool_calls messages [] = (messages', Ok used') ->
  NoDup used'
  /\ forall x,
       In x used' <->
       exists tc, In tc tool_calls /\ x = friendly_name (function_name tc).
Proof.
  intros H. apply run_tool_calls_used in H as [Hnd Hin]. split.
  - apply Hnd. constructor.
  - intros x. rewrite Hin. cbn [In]. tauto.
Qed.

End ToolCalls.

(** ** The conversation turn *)

Section TurnProperties.

Variable rt : Runtime.
Variable host : Host.
Variable console : Console.
Variable firecrawl_app : FirecrawlApp.
Variable tavily_client : TavilyClient.
Variable arxiv : Arxiv.
Variable client : OpenAI.

Local Abbreviation loop :=
  (run_tool_calls rt host console firecrawl_app tavily_client arxiv).
Local Abbreviation reply :=
  (assistant_reply rt host console firecrawl_app tavily_client arxiv client).
Local Abbreviation call :=
  (call_one rt host console firecrawl_app tavily_client arxiv).

Lemma arxiv_search_tool_total (query : str) :
  exists t, arxiv_search_tool rt arxiv query = Ok t.
Proof.
  unfold arxiv_search_tool, try_except.
  destruct (Search_results arxiv query 3 Relevance) as [papers|e];
    cbn [bind].
  - unfold json_dumps. rewrite paper_entries_serializable. now eexists.
  - cbn [dispatch]. rewrite isinstance_Exception_all. now eexists.
Qed.

Lemma call_one_total (fn : tool_function) (p s : str) :
  parameter fn = Some p ->
  (fn = Fn_firecrawl_scrape_tool -> print console fallback_notice = Ok tt) ->
  exists t, call fn (PStr s) = Ok t.
Proof.
  destruct fn; cbn [parameter call_one]; try discriminate; intros _ Hp.
  - destruct (tavily_search_tool_cases rt tavily_client s)
      as [[e H] | (a & b & c & _ & _ & _ & _ & H)]; rewrite H; now eexists.
  - apply arxiv_search_tool_total.
  - destruct (tool_on_returns rt console firecrawl_app tavily_client s
                (Hp eq_refl)) as (doc & H & _).
    rewrite H. now eexists.
Qed.

Lemma known_tool_is_not_the_clock (name : str) (fn : tool_function) (p : str) :
  assoc name available_functions = Some fn ->
  parameter fn = Some p ->
  str_eqb name (u "get_current_time") = false.
Proof.
  unfold available_functions. cbn [assoc].
  destruct (str_eqb name (u "get_current_time")); [|reflexivity].
  intros H Hp. assert (fn = Fn_get_current_time) as -> by congruence.
  discriminate Hp.
Qed.

Lemma str_eqb_refl (s : str) : str_eqb s s = true.
Proof. now apply str_eqb_eq. Qed.

(** X15: a call of the web search or of the paper search whose arguments
    parse to a dict holding the one parameter of the tool, with a string
    for its value, never stops the loop: the tool returns a text, the loop
    appends it as the tool message of the call and goes on with the next
    call.  The same holds of such a call of the scrape tool when the
    console takes the message of line 114. *)
Theorem well_formed_call_is_served
    (tc : ToolCall) (rest : list ToolCall) (messages : list message)
    (used : list str) (fn : tool_function) (p s : str) :
  assoc (function_name tc) available_functions = Some fn ->
  parameter fn = Some p ->
  json_loads host (function_arguments tc) = Ok (PDict [(p, PStr s)]) ->
  (fn = Fn_firecrawl_scrape_tool -> print console fallback_notice = Ok tt) ->
  exists response,
    call fn (PStr s) = Ok response
    /\ loop (tc :: rest) messages used
       = loop rest
           (messages ++ [ToolEntry (call_id tc) (function_name tc) response])
           (note_tool (friendly_name (function_name tc)) used).
Proof.
  intros Hfn Hp Hargs Hprint.
  destruct (@call_one_total fn p s Hp Hprint) as [response Hcall].
  exists response. split; [exact Hcall|].
  cbn [run_tool_calls]. rewrite Hfn, Hargs.
  rewrite (known_tool_is_not_the_clock _ Hfn Hp).
  cbn [call_keywords]. rewrite Hp, str_eqb_refl, Hcall. reflexivity.
Qed.

(** The time tool does not read its arguments, but they have to parse:
    the call is served with the reading of the clock whatever [json.loads]
    returns, and the loop stops with the error of [json.loads] when it
    raises. *)
Lemma time_call_needs_parsable_arguments
    (tc : ToolCall) (rest : list ToolCall) (messages : list message)
    (used : list str) :
  function_name tc = u "get_current_time" ->
  (forall args,
      json_loads host (function_arguments tc) = Ok args ->
      loop (tc :: rest) messages used
      = loop rest
          (messages ++ [ToolEntry (call_id tc) (u "get_current_time")
                          (Text (get_current_time host (call_id tc)))])
          (note_tool (u "⏰ Current Time (시간 확인)") used))
  /\ (forall e,
        json_loads host (function_arguments tc) = Raise e ->
        loop (tc :: rest) messages used = (messages, Raise e)).
Proof.
  intros Hname. split.
  - intros args Hargs. cbn [run_tool_calls]. rewrite Hname, Hargs.
    reflexivity.
  - intros e Hargs. cbn [run_tool_calls]. rewrite Hname, Hargs.
    reflexivity.
Qed.

(** X16: a call of a function that is not in the table stops the turn with
    the error box of a KeyError; the reply of the model and the tool
    messages of the calls before it stay in the transcript, with no answer
    after them. *)
Theorem unknown_tool_stops_the_turn
    (messages : list message) (m : ChatCompletionMessage)
    (pre post : list ToolCall) (tc : ToolCall)
    (messages1 : list message) (used1 : list str) :
  create client messages true = Ok m ->
  reply_tool_calls m = Some (pre ++ tc :: post) ->
  loop pre (messages ++ [Reply m]) [] = (messages1, Ok used1) ->
  assoc (function_name tc) available_functions = None ->
  reply messages = (messages1, error_box rt (Interp KeyError)).
Proof.
  intros Hc Ht Hpre Hno. unfold assistant_reply. rewrite Hc, Ht.
  assert (Hloop : loop (pre ++ tc :: post) (messages ++ [Reply m]) []
                  = (messages1, Raise (Interp KeyError))).
  { erewrite run_tool_calls_app by exact Hpre.
    cbn [run_tool_calls]. now rewrite Hno. }
  destruct (pre ++ tc :: post) as [|first others] eqn:E.
  - destruct pre; discriminate E.
  - now rewrite Hloop.
Qed.

Lemma run_tool_calls_nonempty (first : ToolCall) (others : list ToolCall)
    (messages messages' : list message) (used' : list str) :
  loop (first :: others) messages [] = (messages', Ok used') ->
  used' <> [].
Proof.
  intros H. apply run_tool_calls_used in H as [_ Hin].
  intros ->.
  apply (proj2 (Hin (friendly_name (function_name first)))).
  right. exists first. split; [now left|reflexivity].
Qed.

(** X17: in a turn that used tools the footer naming the tools is always
    added to the answer, the list of the tools used being never empty
    there.  An answer without a text then stops the turn with the error
    box of a TypeError, after the tool messages were appended. *)
Theorem tools_footer_is_always_added
    (messages : list message) (m final : ChatCompletionMessage)
    (first : ToolCall) (others : list ToolCall)
    (messages2 : list message) (used : list str) :
  create client messages true = Ok m ->
  reply_tool_calls m = Some (first :: others) ->
  loop (first :: others) (messages ++ [Reply m]) [] = (messages2, Ok used) ->
  create client messages2 false = Ok final ->
  used <> []
  /\ (forall text,
        reply_content final = Some text ->
        reply messages
        = (messages2
             ++ [Entry (u "assistant") (Some (text ++ tools_footer used))],
           Markdown (Some (text ++ tools_footer used))))
  /\ (reply_content final = None ->
      reply messages = (messages2, error_box rt (Interp TypeError))).
Proof.
  intros Hc Ht Hloop Hf.
  pose proof (run_tool_calls_nonempty _ _ _ Hloop) as Hne.
  split; [exact Hne|].
  assert (Hlen : negb (Nat.eqb (length used) 0) = true)
    by (destruct used; [congruence|reflexivity]).
  split.
  - intros text Htext. unfold assistant_reply.
    rewrite Hc, Ht, Hloop, Hf. unfold add_footer. now rewrite Hlen, Htext.
  - intros Hnone. unfold assistant_reply.
    rewrite Hc, Ht, Hloop, Hf. unfold add_footer. now rewrite Hlen, Hnone.
Qed.

Lemma render_app (a b : list message) : render (a ++ b) = render a ++ render b.
Proof. unfold render. apply flat_map_app. Qed.

Lemma assistant_reply_appends (messages : list message) :
  exists added, fst (reply messages) = messages ++ added.
Proof.
  unfold assistant_reply.
  destruct (create client messages true) as [m|e];
    [|exists []; now rewrite app_nil_r].
  destruct (reply_tool_calls m) as [[|first others]|];
    try (eexists; reflexivity).
  destruct (run_tool_calls_appends rt host console firecrawl_app tavily_client arxiv
              (first :: others) (messages ++ [Reply m]) []) as [added Ha].
  destruct (loop (first :: others) (messages ++ [Reply m]) [])
    as [messages2 r]. cbn [fst] in Ha. subst messages2.
  rewrite <- app_assoc.
  destruct r as [used|e]; [|eexists; reflexivity].
  destruct (create client _ false) as [final|e]; [|eexists; reflexivity].
  destruct (add_footer (reply_content final) used);
    [|eexists; reflexivity].
  cbn [fst]. rewrite <- app_assoc. eexists. reflexivity.
Qed.

(** X18: a turn only appends to the transcript, whether it ends with an
    answer or with an error: the messages before the turn are a prefix of
    the messages after it, so the history displayed after the turn starts
    with the history displayed before. *)
Theorem turn_only_appends (messages : list message) (prompt : str) :
  exists added,
    fst (chat_turn rt host console firecrawl_app tavily_client arxiv client
           messages prompt) = messages ++ added
    /\ render (fst (chat_turn rt host console firecrawl_app tavily_client arxiv
                      client messages prompt))
       = render messages ++ render added.
Proof.
  assert (H : exists added,
    fst (chat_turn rt host console firecrawl_app tavily_client arxiv client
           messages prompt) = messages ++ added).
  { unfold chat_turn. destruct (Nat.eqb (length prompt) 0).
    - exists []. now rewrite app_nil_r.
    - destruct (assistant_reply_appends
                  (messages ++ [Entry (u "user") (Some prompt)]))
        as [added Ha].
      destruct (reply (messages ++ [Entry (u "user") (Some prompt)]))
        as [messages' shown].
      cbn [fst] in *. rewrite Ha, <- app_assoc. eexists. reflexivity. }
  destruct H as [added Ha]. exists added.
  split; [exact Ha|]. rewrite Ha. apply render_app.
Qed.

End TurnProperties.

(** ** Further worked examples *)

Import TurnExamples.






(** A page of 5000 characters comes back cut at 4000. *)
Lemma success_content_is_bounded_example :
  firecrawl_scrape_tool example_runtime (firecrawl_markdown 5000)
    tavily_down story
  = Ok (Json (success_outcome (PStr (letters 4000))))
  /\ exists content n,
       field (u "content") (success_outcome (PStr (letters 4000)))
       = Some content
       /\ py_len content = Ok n /\ 100 <= n <= 4000.
Proof.
  assert (H : firecrawl_scrape_tool example_runtime (firecrawl_markdown 5000)
                tavily_down story
              = Ok (Json (success_outcome (PStr (letters 4000)))))
    by (vm_compute; reflexivity).
  split; [exact H|].
  exact (@success_content_is_bounded example_runtime
           (firecrawl_markdown 5000) tavily_down story
           (success_outcome (PStr (letters 4000))) H eq_refl).
Defined.



Lemma http_and_https_normalize_alike_example :
  normalize_url example_runtime (u "https://" ++ u "example.com/a")
  = normalize_url example_runtime (u "http://" ++ u "example.com/a")
  /\ is_match example_runtime (u "https://" ++ u "example.com/a")
       (u "http://" ++ u "example.com/a") = true.
Proof.
  refine (@http_and_https_normalize_alike example_runtime
            (u "example.com/a")
            {| scheme := u "http"; netloc := u "example.com"; path := u "/a";
               params := []; query := []; fragment := [] |} _).
  vm_compute. reflexivity.
Defined.

Lemma host_prefix_normalizes_away_example :
  normalize_url example_runtime (u "https://" ++ u "m." ++ u "example.com/a")
  = normalize_url example_runtime (u "https://" ++ u "example.com/a")
  /\ is_match example_runtime (u "https://" ++ u "m." ++ u "example.com/a")
       (u "https://" ++ u "example.com/a") = true.
Proof.
  refine (@host_prefix_normalizes_away example_runtime
            (u "https://") (u "m.") (u "example.com/a")
            {| scheme := u "https"; netloc := u "m.example.com";
               path := u "/a"; params := []; query := []; fragment := [] |}
            {| scheme := u "https"; netloc := u "example.com";
               path := u "/a"; params := []; query := []; fragment := [] |}
            _ _ _ _).
  - now right.
  - now right.
  - vm_compute. reflexivity.
  - vm_compute. reflexivity.
Defined.

(** Four results: the first three are returned. *)
Lemma tavily_search_tool_first_three_example :
  tavily_search_tool example_runtime tavily_four (u "news")
  = Ok (Json (PList (firstn 3 four_results))).
Proof.
  destruct (@tavily_search_tool_first_three example_runtime tavily_four
              (u "news") [ (u "results", PList four_results) ] eq_refl)
    as [_ H].
  apply H; reflexivity.
Defined.

(** A scrape call, a time call and a call of an unknown function: the loop
    serves the first two and stops at the third, keeping their messages. *)
Lemma tool_messages_follow_the_calls_example :
  run_tool_calls example_runtime example_host utf8_console
    (firecrawl_markdown 250) tavily_down arxiv_one
    [scrape_call; time_call; unknown_call] asked []
  = (asked ++ [ ToolEntry (u "call_1") (u "firecrawl_scrape_tool")
                  (Json (success_outcome (PStr (letters 250))));
                ToolEntry (u "call_2") (u "get_current_time")
                  (Text (u "2025-01-02 03:04:05")) ],
     Raise (Interp KeyError)).
Proof.
  destruct (@tool_messages_follow_the_calls example_runtime example_host
              utf8_console (firecrawl_markdown 250) tavily_down arxiv_one)
    as [_ Hstop].
  apply (Hstop [scrape_call; time_call]
           [ Json (success_outcome (PStr (letters 250)));
             Text (u "2025-01-02 03:04:05") ]
           unknown_call [] (Interp KeyError) asked []).
  - repeat constructor; vm_compute; reflexivity.
  - reflexivity.
Defined.

(** The scrape tool is called twice and the clock once: each is named
    once. *)
Lemma used_tools_are_listed_once_example :
  NoDup [u "🔥 Firecrawl Scrape (웹 상세분석)"; u "⏰ Current Time (시간 확인)"]
  /\ In (friendly_name (function_name time_call))
       [u "🔥 Firecrawl Scrape (웹 상세분석)"; u "⏰ Current Time (시간 확인)"].
Proof.
  destruct (@used_tools_are_listed_once example_runtime example_host utf8_console
              (firecrawl_markdown 250) tavily_down arxiv_one
              [scrape_call; time_call; scrape_call] asked
              (fst (run_tool_calls example_runtime example_host utf8_console
                      (firecrawl_markdown 250) tavily_down arxiv_one
                      [scrape_call; time_call; scrape_call] asked []))
              [u "🔥 Firecrawl Scrape (웹 상세분석)";
               u "⏰ Current Time (시간 확인)"])
    as [Hnd Hin].
  - vm_compute. reflexivity.
  - split; [exact Hnd|]. apply Hin. exists time_call.
    split; [right; now left|reflexivity].
Defined.

(** A scrape call with well-formed arguments. *)
Lemma well_formed_call_is_served_example :
  exists response,
    firecrawl_scrape_tool_on example_runtime utf8_console
      (firecrawl_markdown 250) tavily_down story = Ok response
    /\ run_tool_calls example_runtime example_host utf8_console (firecrawl_markdown 250)
         tavily_down arxiv_one [scrape_call] asked []
       = (asked ++ [ToolEntry (u "call_1") (u "firecrawl_scrape_tool")
                      response],
          Ok [u "🔥 Firecrawl Scrape (웹 상세분석)"]).
Proof.
  destruct (@well_formed_call_is_served example_runtime example_host utf8_console
              (firecrawl_markdown 250) tavily_down arxiv_one
              scrape_call [] asked [] Fn_firecrawl_scrape_tool (u "url")
              story eq_refl eq_refl)
    as (response & Hcall & Hloop).
  - vm_compute. reflexivity.
  - intros _. reflexivity.
  - exists response. split; [exact Hcall|]. rewrite Hloop. reflexivity.
Defined.

(** A time call whose arguments are the empty object. *)
Lemma time_call_needs_parsable_arguments_example :
  run_tool_calls example_runtime example_host utf8_console (firecrawl_markdown 250)
    tavily_down arxiv_one [time_call] asked []
  = (asked ++ [ToolEntry (u "call_2") (u "get_current_time")
                 (Text (u "2025-01-02 03:04:05"))],
     Ok [u "⏰ Current Time (시간 확인)"]).
Proof.
  destruct (@time_call_needs_parsable_arguments example_runtime example_host utf8_console
              (firecrawl_markdown 250) tavily_down arxiv_one
              time_call [] asked [] eq_refl)
    as [Hok _].
  rewrite (Hok (PDict [])); [reflexivity|]. vm_compute. reflexivity.
Defined.

(** The model asks for the time and then for a function that does not
    exist: the transcript ends with the reading of the clock. *)
Lemma unknown_tool_stops_the_turn_example :
  assistant_reply example_runtime example_host utf8_console (firecrawl_markdown 250)
    tavily_down arxiv_one
    (model [time_call; unknown_call] (text_reply "Done.")) asked
  = (asked ++ [Reply (tool_reply [time_call; unknown_call]);
               ToolEntry (u "call_2") (u "get_current_time")
                 (Text (u "2025-01-02 03:04:05"))],
     error_box example_runtime (Interp KeyError)).
Proof.
  refine (@unknown_tool_stops_the_turn example_runtime example_host utf8_console
            (firecrawl_markdown 250) tavily_down arxiv_one
            (model [time_call; unknown_call] (text_reply "Done."))
            asked (tool_reply [time_call; unknown_call])
            [time_call] [] unknown_call _
            [u "⏰ Current Time (시간 확인)"] eq_refl eq_refl _ eq_refl).
  vm_compute. reflexivity.
Defined.

(** The model asks for the time and answers: the footer names the clock. *)
Lemma tools_footer_is_always_added_example :
  snd (assistant_reply example_runtime example_host utf8_console (firecrawl_markdown 250)
         tavily_down arxiv_one (model [time_call] (text_reply "It is 3 am."))
         asked)
  = Markdown (Some (u "It is 3 am."
                      ++ tools_footer [u "⏰ Current Time (시간 확인)"])).
Proof.
  destruct (@tools_footer_is_always_added example_runtime example_host utf8_console
              (firecrawl_markdown 250) tavily_down arxiv_one
              (model [time_call] (text_reply "It is 3 am.")) asked
              (tool_reply [time_call]) (text_reply "It is 3 am.")
              time_call []
              (fst (run_tool_calls example_runtime example_host utf8_console
                      (firecrawl_markdown 250) tavily_down arxiv_one
                      [time_call] (asked ++ [Reply (tool_reply [time_call])])
                      []))
              [u "⏰ Current Time (시간 확인)"] eq_refl eq_refl)
    as (_ & Htext & _).
  - vm_compute. reflexivity.
  - reflexivity.
  - rewrite (Htext (u "It is 3 am.") eq_refl). reflexivity.
Defined.

(** A whole turn with one scrape call, as it is displayed afterwards: the
    system prompt and the reply that asks for the tool are not shown, the
    result of the tool is. *)
Example turn_with_a_scrape_call :
  map fst
    (render (fst (chat_turn example_runtime example_host utf8_console
                    (firecrawl_markdown 250) tavily_down arxiv_one
                    (model [scrape_call] (text_reply "Summary."))
                    history (u "Summarise the story"))))
  = [u "user"; u "tool"; u "assistant"].
Proof. vm_compute. reflexivity. Qed.

(** An empty prompt changes nothing. *)
Example empty_prompt_is_ignored :
  chat_turn example_runtime example_host utf8_console (firecrawl_markdown 250) tavily_down
    arxiv_one (model [] (text_reply "")) history (u "")
  = (history, None).
Proof. reflexivity. Qed.

(** C1: the direct stage fails and the search returns one result, about
    another page, that has no url field, so that no returned result has a
    URL matching the target: the tool does not refuse; it returns the title
    and the content of that result as a fallback_success. *)
Theorem result_without_url_is_not_refused :
  search tavily_no_url story (u "advanced")
  = Ok (PDict [ (u "results",
                 PList [ PDict [ (u "title", PStr (u "Elsewhere"));
                                 (u "content", PStr (u "Not the page")) ] ]) ])
  /\ direct_scrape example_runtime firecrawl_blocked story
     = Raise (Raised ClientError (u "403"))
  /\ firecrawl_scrape_tool_on example_runtime utf8_console firecrawl_blocked
       tavily_no_url story
     = Ok (Json (verified_outcome
                   [u "- 제목: Elsewhere" ++ nl ++ u "- 내용: Not the page"]))
  /\ field (u "status")
       (verified_outcome
          [u "- 제목: Elsewhere" ++ nl ++ u "- 내용: Not the page"])
     = Some (PStr (u "fallback_success")).
Proof.
  split; [reflexivity|]. split; [reflexivity|].
  split; [vm_compute; reflexivity|reflexivity].
Qed.

Lemma ascii_console_rejects_the_notices (url : str) :
  print ascii_console (scrape_notice url)
  = Raise (Raised ValueError (u "'ascii' codec can't encode characters"))
  /\ print ascii_console fallback_notice
     = Raise (Raised ValueError (u "'ascii' codec can't encode characters")).
Proof.
  split.
  - unfold ascii_console, print.
    replace (isascii (scrape_notice url)) with false; [reflexivity|].
    unfold scrape_notice.
    destruct (u "🕵️‍♂️ Firecrawl 스크래핑 시도: ") as [|c t] eqn:E;
      [vm_compute in E; discriminate|].
    assert (Hc : c = 128373%N) by (vm_compute in E; congruence).
    subst c. reflexivity.
  - vm_compute. reflexivity.
Qed.

(** C2: on a console whose encoding is ASCII neither the message of line
    85 nor that of line 114 can be written; the first failure is caught by
    the outer [try], the second occurs in the handler outside the inner
    [try], so that for every URL and whatever the two collaborators do the
    exception of [print] leaves the tool and no outcome is returned. *)
Theorem tool_raises_when_the_notice_cannot_be_written
    (rt : Runtime) (firecrawl_app : FirecrawlApp)
    (tavily_client : TavilyClient) (url : str) :
  firecrawl_scrape_tool_on rt ascii_console firecrawl_app tavily_client url
  = Raise (Raised ValueError (u "'ascii' codec can't encode characters")).
Proof.
  destruct (ascii_console_rejects_the_notices url) as [H85 H114].
  rewrite tool_on_first_clause, H85, H114. reflexivity.
Qed.

(** The same run on the two consoles: Firecrawl is blocked and the search
    is down. *)
Example blocked_page_on_two_consoles :
  firecrawl_scrape_tool_on example_runtime utf8_console firecrawl_blocked
    tavily_down story = Ok (Json collection_failed)
  /\ firecrawl_scrape_tool_on example_runtime ascii_console firecrawl_blocked
       tavily_down story
     = Raise (Raised ValueError (u "'ascii' codec can't encode characters")).
Proof. split; vm_compute; reflexivity. Qed.

(** On a console that takes the messages, a scrape call in a turn. *)
Lemma tool_returns_unless_the_notice_fails_example :
  exists doc,
    firecrawl_scrape_tool_on example_runtime utf8_console firecrawl_blocked
      tavily_down story = Ok (Json doc)
    /\ well_formed_outcome doc.
Proof.
  destruct (@tool_returns_unless_the_notice_fails example_runtime
              utf8_console firecrawl_blocked tavily_down story)
    as [Hret _].
  exact (Hret eq_refl).
Defined.
